(** * DeepSpeed-MII: replica planner, port allocator, client start-up and dispatch

    A shallow embedding of
      - [mii/config.py]      ([_allocate_processes], [generate_replica_configs],
                              the [DeploymentConfig] validators),
      - [mii/deployment.py]  ([_allocate_processes], [allocate_processes]),
      - [mii/server_client.py] ([MIIServerClient]),
      - [mii/launch/multi_gpu_server.py] ([b64_encoded_config]).

    Python integers are unbounded, hence [Z].  Ordered dictionaries whose
    iteration order matters (the host file, [GPU_index_map], the deployments)
    are association lists; [port_map] is a finite map from host names to
    finite sets of ports. *)

From Stdlib Require Import ZArith List Lia Bool.
From Stdlib Require Import Strings.Ascii Strings.String.
From stdpp Require Import base option list gmap sets strings numbers.

Open Scope Z_scope.

(** ** Exceptions raised by the modelled code *)

Inductive exn : Type :=
  | NoHostsFound                                        (* assert len(resource_pool) > 0 *)
  | HostNotFound (host : string)                        (* assert host in resource_pool *)
  | HostSlotsAssert (host : string) (slots required : Z)(* assert resource_pool[host] >= tensor_parallel *)
  | HostSlotsError (host : string) (slots required : Z) (* raise ValueError inside the while loop *)
  | NotSufficientGPUs (requested allocated : Z)         (* raise ValueError after the host scan *)
  | ReplicaConfigsLength                                (* assert len(replica_configs) == replica_num *)
  | MaxOfEmptySet                                       (* max() of an empty set *)
  | GPUCountAssert (available required : Z)             (* assert torch.cuda.device_count() >= num_gpus *)
  | GPUCountPositive                                    (* assert self.num_gpus > 0 *)
  | ServerAlreadyRunning (port : Z)                     (* RuntimeError in _initialize_service *)
  | ServerCrashed                                       (* RuntimeError in _wait_until_server_is_live *)
  | GrpcClientNotSetup                                  (* assert self.initialize_grpc_client *)
  | RemoteError (cause : string)                        (* an exception raised by a shard's RPC *)
  | KeyError (key : string)                             (* request_dict[key] *)
  | IndexError                                          (* responses[0] of an empty list *)
  | UnknownTask                                         (* assert False, unknown task *)
  | AttributeError                                      (* .get on a value that is no dict *)
  | DeployRankMismatch (ranks tensor_parallel : Z)      (* assert in deploy_rank_valid *)
  | ValidationError (msg : string).                     (* a pydantic validator failed *)

Inductive result (A : Type) : Type :=
  | Ok (a : A)
  | Raise (e : exn).
Arguments Ok {A} a.
Arguments Raise {A} e.

#[global] Instance result_ret : MRet result := fun _ a => Ok a.
#[global] Instance result_bind : MBind result := fun _ _ k r =>
  match r with
  | Ok a => k a
  | Raise e => Raise e
  end.

Definition assert (b : bool) (e : exn) : result unit :=
  if b then Ok tt else Raise e.

(** ** The replica planner: [_allocate_processes] *)

Module Planner.

(** The host file as [fetch_hostfile] returns it: an ordered dictionary from
    host name to slot count, in file order. *)
Definition resource_pool := list (string * Z).

(** [GPU_index_map]: an ordered dictionary from host name to GPU indices. *)
Definition gpu_index_map := list (string * list Z).

(** One entry of [replica_pool]. *)
Definition assignment : Type := string * list Z.

(** [host in resource_pool] and [resource_pool[host]]. *)
Fixpoint pool_get (pool : resource_pool) (host : string) : option Z :=
  match pool with
  | [] => None
  | (h, s) :: rest => if String.eqb h host then Some s else pool_get rest host
  end.

(** [range(a, b)] *)
Definition range (a b : Z) : list Z := seqZ a (b - a).

(** State of the scan: [allocated_num] and [replica_pool]. *)
Record scan := Scan { allocated_num : Z; replica_pool : list assignment }.

(** The [while available_on_host >= tensor_parallel] loop for one host.  Every
    iteration that does not leave the loop increments [allocated_num], so
    [fuel] only counts iterations; [None] means the fuel ran out. *)
Fixpoint carve_while (fuel : nat) (host : string) (slots tensor_parallel replica_num : Z)
    (available_on_host : Z) (st : scan) : option (result scan) :=
  match fuel with
  | O => None
  | S fuel' =>
    if tensor_parallel <=? available_on_host then
      if replica_num <=? allocated_num st then Some (Ok st)              (* break *)
      else if slots <? tensor_parallel then
        Some (Raise (HostSlotsError host slots tensor_parallel))
      else
        let allocated_num_on_host := slots - available_on_host in
        let st' := Scan (allocated_num st + 1)
                        (replica_pool st ++
                         [(host, range allocated_num_on_host
                                       (allocated_num_on_host + tensor_parallel))]) in
        carve_while fuel' host slots tensor_parallel replica_num
                    (available_on_host - tensor_parallel) st'
    else Some (Ok st)
  end.

(** Iterations the loop can still make from [st]: one per missing replica,
    one more to leave. *)
Definition carve_fuel (replica_num : Z) (st : scan) : nat :=
  S (Z.to_nat (replica_num - allocated_num st)).

(** The [for host, slots in resource_pool.items()] loop. *)
Fixpoint scan_hosts (pool : resource_pool) (tensor_parallel replica_num : Z) (st : scan)
    : option (result scan) :=
  match pool with
  | [] => Some (Ok st)
  | (host, slots) :: rest =>
    match carve_while (carve_fuel replica_num st) host slots tensor_parallel replica_num slots st with
    | None => None
    | Some (Raise e) => Some (Raise e)
    | Some (Ok st') => scan_hosts rest tensor_parallel replica_num st'
    end
  end.

(** The first [for host in GPU_index_map] loop: the two assertions. *)
Fixpoint check_index_map (pool : resource_pool) (tensor_parallel : Z) (m : gpu_index_map)
    : result unit :=
  match m with
  | [] => Ok tt
  | (host, _) :: rest =>
    match pool_get pool host with
    | None => Raise (HostNotFound host)
    | Some slots =>
      if tensor_parallel <=? slots then check_index_map pool tensor_parallel rest
      else Raise (HostSlotsAssert host slots tensor_parallel)
    end
  end.

(** [GPU_index_map[host]] *)
Fixpoint index_get (m : gpu_index_map) (host : string) : list Z :=
  match m with
  | [] => []
  | (h, idx) :: rest => if String.eqb h host then idx else index_get rest host
  end.

(** The second [for host in GPU_index_map] loop:
    [replica_pool.append((host, GPU_index_map[host]))]. *)
Definition pin_hosts (m keys : gpu_index_map) : list assignment :=
  map (fun hk => (fst hk, index_get m (fst hk))) keys.

(** [_allocate_processes] of [mii/deployment.py]; the one of [mii/config.py]
    differs only in returning [GPU_index_map] along with the pool. *)
Definition _allocate_processes (pool : resource_pool) (tensor_parallel replica_num : Z)
    (GPU_index_map : option gpu_index_map) : option (result (list assignment)) :=
  if Nat.eqb (length pool) 0 then Some (Raise NoHostsFound)
  else
    match GPU_index_map with
    | Some m =>
      match check_index_map pool tensor_parallel m with
      | Raise e => Some (Raise e)
      | Ok _ => Some (Ok (pin_hosts m m))
      end
    | None =>
      match scan_hosts pool tensor_parallel replica_num (Scan 0 []) with
      | None => None
      | Some (Raise e) => Some (Raise e)
      | Some (Ok st) =>
        if allocated_num st <? replica_num
        then Some (Raise (NotSufficientGPUs replica_num (allocated_num st)))
        else Some (Ok (replica_pool st))
      end
    end.

(** *** The planner as the specification words it

    Host by host in catalog order, the k-th window of a host is
    [[k*tp, (k+1)*tp)], a host yields [slots / tp] windows, and the plan is
    the first [replicaCount] windows. *)
Definition window (host : string) (tp k : Z) : assignment :=
  (host, range (k * tp) ((k + 1) * tp)).

Definition host_windows (tp : Z) (hs : string * Z) : list assignment :=
  map (window (fst hs) tp) (seqZ 0 (snd hs / tp)).

Definition spec_plan (pool : resource_pool) (tp replicaCount : Z) : list assignment :=
  take (Z.to_nat replicaCount) (flat_map (host_windows tp) pool).

(** A pinned host that the catalog lacks or that is too small for a replica. *)
Definition offending (pool : resource_pool) (tp : Z) (host : string) : Prop :=
  match pool_get pool host with
  | None => True
  | Some slots => slots < tp
  end.

End Planner.

(** ** Configuration classes of [mii/config.py] *)

Module Config.

(** [Dict[str, Any]] values, as far as the validators look into them. *)
#[warnings="-register-all"] Inductive pyval : Type :=
  | PNone
  | PBool (b : bool)
  | PInt (z : Z)
  | PStr (s : string)
  | PList (l : list pyval)
  | PDict (d : list (string * pyval)).

(** Python truthiness. *)
Definition truthy (v : pyval) : bool :=
  match v with
  | PNone => false
  | PBool b => b
  | PInt z => negb (z =? 0)
  | PStr s => negb (String.eqb s "")
  | PList l => negb (Nat.eqb (length l) 0)
  | PDict d => negb (Nat.eqb (length d) 0)
  end.

(** [d.get(k, dflt)] *)
Fixpoint dict_get (d : list (string * pyval)) (k : string) (dflt : pyval) : pyval :=
  match d with
  | [] => dflt
  | (k', v) :: rest => if String.eqb k' k then v else dict_get rest k dflt
  end.

(** [deepspeed.inference.config.DtypeEnum] *)
Inductive DtypeEnum : Type := fp16 | fp32 | bf16 | int8.

(** [mii.constants.TaskType]: the task kinds the client dispatches on, and
    text-to-image, which [deploy] documents. *)
Inductive TaskType : Type :=
  | TEXT_GENERATION
  | TEXT_CLASSIFICATION
  | QUESTION_ANSWERING
  | FILL_MASK
  | TOKEN_CLASSIFICATION
  | CONVERSATIONAL
  | TEXT2IMG.

Inductive DeploymentType : Type := LOCAL | AML | NON_PERSISTENT.

Record ReplicaConfig : Type := mkReplicaConfig {
  hostname : string;
  tensor_parallel_ports : list Z;
  replica_torch_dist_port : Z;          (* field [torch_dist_port] of ReplicaConfig *)
  gpu_indices : list Z
}.

Record DeploymentConfig : Type := mkDeploymentConfig {
  (* Deployment configs *)
  deployment_name : string;
  load_with_sys_mem : bool;
  meta_tensor : bool;
  hf_auth_token : option string;
  deploy_rank : option (list Z);
  torch_dist_port : Z;
  replica_num : Z;
  replica_configs : list ReplicaConfig;
  profile_model_time : bool;
  skip_model_check : bool;
  trust_remote_code : bool;
  (* Model configs *)
  model : string;
  task : TaskType;
  dtype : DtypeEnum;
  model_path : string;
  checkpoint_dict : option (list (string * pyval));
  max_tokens : Z;
  GPU_index_map : option Planner.gpu_index_map;
  (* Performance configs *)
  enable_deepspeed : bool;
  enable_zero : bool;
  ds_config : list (string * pyval);
  tensor_parallel : Z;
  enable_cuda_graph : bool;
  replace_with_kernel_inject : bool
}.

Definition set_replica_plan (c : DeploymentConfig)
    (m : option Planner.gpu_index_map) (rcs : list ReplicaConfig) : DeploymentConfig :=
  mkDeploymentConfig
    (deployment_name c) (load_with_sys_mem c) (meta_tensor c) (hf_auth_token c)
    (deploy_rank c) (torch_dist_port c) (replica_num c) rcs
    (profile_model_time c) (skip_model_check c) (trust_remote_code c)
    (model c) (task c) (dtype c) (model_path c) (checkpoint_dict c) (max_tokens c) m
    (enable_deepspeed c) (enable_zero c) (ds_config c) (tensor_parallel c)
    (enable_cuda_graph c) (replace_with_kernel_inject c).

(** The fields of [MIIConfig] that [generate_replica_configs] reads and
    writes; [hostfile] stands for what [fetch_hostfile(hostfile)] returns. *)
Record MIIConfig : Type := mkMIIConfig {
  deployment_configs : list (string * DeploymentConfig);
  port_number : Z;
  hostfile : Planner.resource_pool;
  port_map : gmap string (gset Z)
}.

End Config.

(** ** The port allocator *)

Module Ports.
Import Planner Config.

(** [max(s)] of a set of ports; Python raises on the empty set. *)
Definition set_max (s : gset Z) : option Z :=
  foldr (fun x acc => Some (from_option (Z.max x) x acc)) None (elements s).

(** [for i in range(base_port, base_port + tensor_parallel): port_map[hostname].add(i)]:
    the loop rebinds the variable [i] of the enclosing [enumerate] loop, so it
    is threaded with the set. *)
Definition add_ports (block : list Z) (reserved : gset Z) (i : Z) : gset Z * Z :=
  foldl (fun st p => ({[ p ]} ∪ fst st, p)) (reserved, i) block.

(** One iteration of [for i, (hostname, gpu_indices) in enumerate(replica_pool)].
    [coord] is the coordination-port expression: [torch_dist_port + (100 * i)]
    in [mii/config.py], [mii_config.torch_dist_port + i] in [mii/deployment.py]. *)
Definition reserve_replica (coord : Z -> Z -> Z)
    (port_number port_offset tensor_parallel torch_dist_port : Z)
    (i : Z) (a : assignment) (port_map : gmap string (gset Z))
    : result (ReplicaConfig * gmap string (gset Z)) :=
  let hostname := fst a in
  let gpu_indices := snd a in
  let port_map :=
    match port_map !! hostname with
    | None => <[hostname := ∅]> port_map
    | Some _ => port_map
    end in
  let reserved := default ∅ (port_map !! hostname) in
  let base_port := port_number + i * tensor_parallel + port_offset in
  base_port ←
    (if decide (base_port ∈ reserved) then
       match set_max reserved with
       | Some m => Ok (m + 1)
       | None => Raise MaxOfEmptySet
       end
     else Ok base_port);
  let tensor_parallel_ports := range base_port (base_port + tensor_parallel) in
  let '(reserved, i) := add_ports tensor_parallel_ports reserved i in
  let port_map := <[hostname := reserved]> port_map in
  Ok (mkReplicaConfig hostname tensor_parallel_ports (coord torch_dist_port i) gpu_indices,
      port_map).

(** The [enumerate(replica_pool)] loop, from index [i] on. *)
Fixpoint replica_loop (coord : Z -> Z -> Z)
    (port_number port_offset tensor_parallel torch_dist_port : Z)
    (i : Z) (pool : list assignment) (port_map : gmap string (gset Z))
    (replica_configs : list ReplicaConfig)
    : result (list ReplicaConfig * gmap string (gset Z)) :=
  match pool with
  | [] => Ok (replica_configs, port_map)
  | a :: rest =>
    '(rc, port_map) ← reserve_replica coord port_number port_offset tensor_parallel
                                       torch_dist_port i a port_map;
    replica_loop coord port_number port_offset tensor_parallel torch_dist_port
                 (i + 1) rest port_map (replica_configs ++ [rc])
  end.

Definition coord_config (torch_dist_port i : Z) : Z := torch_dist_port + 100 * i.
Definition coord_deployment (torch_dist_port i : Z) : Z := torch_dist_port + i.

(** [MIIConfig.generate_replica_configs] of [mii/config.py]: the loop over
    [deployment_configs.values()].  [done] are the deployments already
    processed; a deployment that comes with replica configs ends the
    validator at once. *)
Fixpoint generate_loop (hostfile : resource_pool) (port_number : Z)
    (todo done : list (string * DeploymentConfig)) (port_map : gmap string (gset Z))
    : option (result (list (string * DeploymentConfig) * gmap string (gset Z))) :=
  match todo with
  | [] => Some (Ok (done, port_map))
  | (name, dc) :: rest =>
    if negb (Nat.eqb (length (replica_configs dc)) 0) then
      if Z.of_nat (length (replica_configs dc)) =? replica_num dc
      then Some (Ok (done ++ todo, port_map))                       (* return values *)
      else Some (Raise ReplicaConfigsLength)
    else
      match _allocate_processes hostfile (tensor_parallel dc) (replica_num dc)
                                (GPU_index_map dc) with
      | None => None
      | Some (Raise e) => Some (Raise e)
      | Some (Ok pool) =>
        match replica_loop coord_config port_number 1 (tensor_parallel dc)
                           (torch_dist_port dc) 0 pool port_map [] with
        | Raise e => Some (Raise e)
        | Ok (rcs, port_map) =>
          generate_loop hostfile port_number rest
                        (done ++ [(name, set_replica_plan dc (GPU_index_map dc) rcs)])
                        port_map
        end
      end
  end.

Definition generate_replica_configs (values : MIIConfig) : option (result MIIConfig) :=
  match generate_loop (hostfile values) (port_number values)
                      (deployment_configs values) [] (port_map values) with
  | None => None
  | Some (Raise e) => Some (Raise e)
  | Some (Ok (dcs, pm)) =>
    Some (Ok (mkMIIConfig dcs (port_number values) (hostfile values) pm))
  end.

(** What [allocate_processes] of [mii/deployment.py] reads of a deployment
    and of [mii_config]. *)
Record Deployment : Type := mkDeployment {
  d_hostfile : resource_pool;              (* fetch_hostfile(deployment.hostfile) *)
  d_tensor_parallel : Z;
  d_replica_num : Z;
  d_gpu_index_map : option gpu_index_map
}.

(** [allocate_processes]: the loop over [deployments.values()]; the replica
    configs of all deployments go into one list, the one of the load
    balancer. *)
Fixpoint allocate_processes (deployments : list Deployment)
    (port_map : gmap string (gset Z)) (mii_port_number mii_torch_dist_port : Z)
    (replica_configs : list ReplicaConfig)
    : option (result (list ReplicaConfig * gmap string (gset Z))) :=
  match deployments with
  | [] => Some (Ok (replica_configs, port_map))
  | d :: rest =>
    match _allocate_processes (d_hostfile d) (d_tensor_parallel d) (d_replica_num d)
                              (d_gpu_index_map d) with
    | None => None
    | Some (Raise e) => Some (Raise e)
    | Some (Ok pool) =>
      match replica_loop coord_deployment mii_port_number 1 (d_tensor_parallel d)
                         mii_torch_dist_port 0 pool port_map replica_configs with
      | Raise e => Some (Raise e)
      | Ok (rcs, port_map) =>
        allocate_processes rest port_map mii_port_number mii_torch_dist_port rcs
      end
    end
  end.

(** [port_map[hostname]], empty for a host not yet in the map. *)
Definition reserved_on (port_map : gmap string (gset Z)) (hostname : string) : gset Z :=
  default ∅ (port_map !! hostname).

(** *** The allocator as the specification words it

    The block of a replica starts at its candidate, or, when the candidate is
    already reserved for the host, one above the largest reserved port. *)
Definition is_max (reserved : gset Z) (m : Z) : Prop :=
  (m ∈ reserved) /\ (forall p, p ∈ reserved -> p <= m).

Definition spec_start (reserved : gset Z) (candidate start : Z) : Prop :=
  ((candidate ∉ reserved) /\ start = candidate) \/
  ((candidate ∈ reserved) /\ is_max reserved (start - 1)).

(** A deployment of [tensor_parallel] shards and [replica_num] replicas, all
    other fields at the defaults of the class. *)
Definition deployment_of (name : string) (tensor_parallel replica_num : Z) : DeploymentConfig :=
  mkDeploymentConfig name false false None None 29500 replica_num [] false false false
    "gpt2" TEXT_GENERATION fp32 "" None 1024 None
    true false [] tensor_parallel false true.

(** The hosts and shard ports of the replicas of each deployment. *)
Definition shard_ports (values : MIIConfig) : list (string * list (string * list Z)) :=
  map (fun nd => (fst nd, map (fun rc => (hostname rc, tensor_parallel_ports rc))
                             (replica_configs (snd nd))))
      (deployment_configs values).

(** The coordination port of the replicas of each deployment. *)
Definition coordination_ports (values : MIIConfig) : list (string * list Z) :=
  map (fun nd => (fst nd, map replica_torch_dist_port (replica_configs (snd nd))))
      (deployment_configs values).

End Ports.

(** ** The client of [mii/server_client.py] *)

Module Client.
Import Config.

(** Requests and methods of the gRPC stub. *)
Inductive grpc_method : Type :=
  | GeneratorReply
  | ClassificationReply
  | QuestionAndAnswerReply
  | FillMaskReply
  | TokenClassificationReply
  | ConversationalReply.

Inductive grpc_request : Type :=
  | SingleStringRequest (request : pyval)
  | QARequest (question context : pyval)
  | ConversationRequest (text : pyval) (conversation_id : option pyval)
                        (past_user_inputs generated_responses : pyval).

(** A call on a stub: it completes after [latency] further turns of the
    event loop, with a reply or with an exception. *)
Record call : Type := mkCall { latency : nat; outcome : result string }.

(** What the client observes of its environment. *)
Record world : Type := mkWorld {
  device_count : Z;                   (* torch.cuda.device_count() *)
  busy_at_launch : Z -> bool;         (* _is_socket_open(port) in _initialize_service *)
  socket_open : nat -> Z -> bool;     (* _is_socket_open(port) at the t-th poll *)
  process_exited : nat -> bool;       (* process.wait(1) returns at the t-th poll *)
  rpc : nat -> grpc_method -> grpc_request -> call;   (* the stub of shard [stub_id] *)
  local_model : TaskType -> list (string * pyval) -> result string;
  elapsed : string                    (* the text of [end - start] *)
}.

(** The handle [subprocess.Popen] returns. *)
Inductive Popen : Type := LaunchedServer.

Record MIIServerClient : Type := mkClient {
  task : TaskType;
  num_gpus : Z;
  use_grpc_server : bool;
  initialize_service : bool;
  initialize_grpc_client : bool;
  port_number : Z;
  process : option Popen;
  stubs : list Z                      (* stub i talks to localhost:stubs[i] *)
}.



(** [_is_server_process_alive], at the t-th poll. *)
Definition _is_server_process_alive (w : world) (process : option Popen) (t : nat) : bool :=
  match process with
  | None => true
  | Some _ => negb (process_exited w t)
  end.

(** [_wait_until_server_is_live]: the loop from poll [t] on; [sleeps] logs the
    arguments of [time.sleep].  The result is the log; [None]: still waiting
    when the fuel ran out. *)
Fixpoint _wait_until_server_is_live (fuel : nat) (w : world) (process : option Popen)
    (port_number : Z) (t : nat) (sleeps : list Z) : option (result (list Z)) :=
  match fuel with
  | O => None
  | S fuel' =>
    let sockets_open := socket_open w t port_number in
    let process_alive := _is_server_process_alive w process t in
    if negb process_alive then Some (Raise ServerCrashed)
    else
      let sleeps := sleeps ++ [4] in
      if sockets_open then Some (Ok sleeps)
      else _wait_until_server_is_live fuel' w process port_number (S t) sleeps
  end.




(** [request_dict[key]] *)
Fixpoint getitem (d : list (string * pyval)) (key : string) : result pyval :=
  match d with
  | [] => Raise (KeyError key)
  | (k, v) :: rest => if String.eqb k key then Ok v else getitem rest key
  end.

(** The request [_request_async_response] builds for a task kind, and the
    method it calls. *)
Definition build_request (task : TaskType) (request_dict : list (string * pyval))
    : result (grpc_method * grpc_request) :=
  match task with
  | TEXT_GENERATION =>
    q ← getitem request_dict "query"; Ok (GeneratorReply, SingleStringRequest q)
  | TEXT_CLASSIFICATION =>
    q ← getitem request_dict "query"; Ok (ClassificationReply, SingleStringRequest q)
  | QUESTION_ANSWERING =>
    q ← getitem request_dict "question";
    c ← getitem request_dict "context";
    Ok (QuestionAndAnswerReply, QARequest q c)
  | FILL_MASK =>
    q ← getitem request_dict "query"; Ok (FillMaskReply, SingleStringRequest q)
  | TOKEN_CLASSIFICATION =>
    q ← getitem request_dict "query"; Ok (TokenClassificationReply, SingleStringRequest q)
  | CONVERSATIONAL =>
    t ← getitem request_dict "text";
    let cid := match getitem request_dict "conversation_id" with
               | Ok v => Some v
               | Raise _ => None
               end in
    p ← getitem request_dict "past_user_inputs";
    g ← getitem request_dict "generated_responses";
    Ok (ConversationalReply, ConversationRequest t cid p g)
  | TEXT2IMG => Raise UnknownTask
  end.

(** An asyncio task: still running for some more turns of the loop, or done. *)
Inductive task_state : Type :=
  | Pending (turns : nat) (r : result string)
  | Done (r : result string).

(** [create_task(self._request_async_response(stub_id, request_dict))] *)
Definition _request_async_response (w : world) (task : TaskType) (stub_id : nat)
    (request_dict : list (string * pyval)) : task_state :=
  match build_request task request_dict with
  | Raise e => Pending 0 (Raise e)
  | Ok (m, r) => let c := rpc w stub_id m r in Pending (latency c) (outcome c)
  end.

(** One turn of the event loop: every running task advances. *)
Definition turn (t : task_state) : task_state :=
  match t with
  | Pending O r => Done r
  | Pending (S n) r => Pending n r
  | Done r => Done r
  end.

(** [await responses[0]; return responses[0]]: the loop turns until the first
    task is done; every task on the loop advances with it, none is awaited
    but the first and none is cancelled.  The result is what the first task
    ended with, and the tasks as they are on the loop at that moment. *)
Fixpoint await_first (fuel : nat) (responses : list task_state)
    : option (result string * list task_state) :=
  match responses with
  | [] => Some (Raise IndexError, [])
  | Done r :: _ => Some (r, responses)
  | Pending _ _ :: _ =>
    match fuel with
    | O => None
    | S fuel' => await_first fuel' (map turn responses)
    end
  end.

(** [_query_in_tensor_parallel] under [run_until_complete]: one task per
    shard, created in shard order, each calling the stub of its shard. *)
Definition _query_in_tensor_parallel (fuel : nat) (w : world) (self : MIIServerClient)
    (request_dict : list (string * pyval)) : option (result string * list task_state) :=
  let responses :=
    map (fun i => _request_async_response w (task self) i request_dict)
        (seq 0 (Z.to_nat (num_gpus self))) in
  await_first fuel responses.

(** [_request_response]: the model of this process answers. *)
Definition _request_response (w : world) (self : MIIServerClient)
    (request_dict : list (string * pyval)) : result string :=
  response ← local_model w (task self) request_dict;
  Ok (response ++ String (Ascii.ascii_of_nat 10) " Model Execution Time: "
         ++ elapsed w ++ " seconds")%string.

(** [query]; [response.result()] is what the first task ended with. *)
Definition query (fuel : nat) (w : world) (self : MIIServerClient)
    (request_dict : list (string * pyval)) : option (result string) :=
  if negb (use_grpc_server self) then Some (_request_response w self request_dict)
  else if negb (initialize_grpc_client self) then Some (Raise GrpcClientNotSetup)
  else
    match _query_in_tensor_parallel fuel w self request_dict with
    | None => None
    | Some (response, _) => Some response
    end.

(** The turns of the loop a task still needs, and what it ends with. *)
Definition turns_left (t : task_state) : nat :=
  match t with
  | Pending n _ => S n
  | Done _ => O
  end.

Definition task_result (t : task_state) : result string :=
  match t with
  | Pending _ r => r
  | Done r => r
  end.

(** A call that ends after [n] turns. *)
Definition replies (n : nat) (r : result string) : call := mkCall n r.

(** A server of two shards on ports 50050 and 50051 of which only the first
    ever listens, and whose process exits after the first poll. *)
Definition half_open_world : world :=
  mkWorld 2 (fun _ => false)
          (fun _ port => port =? 50050)
          (fun t => Nat.ltb 0 t)
          (fun _ _ _ => replies 0 (Ok "reply"%string))
          (fun _ _ => Ok "reply"%string)
          "0"%string.

(** Two shards: the first fails at once, the second replies. *)
Definition first_shard_down : world :=
  mkWorld 2 (fun _ => false)
          (fun _ _ => true)
          (fun _ => false)
          (fun stub_id _ _ =>
             match stub_id with
             | O => replies 0 (Raise (RemoteError "connection refused"))
             | _ => replies 0 (Ok "reply of shard 1"%string)
             end)
          (fun _ _ => Ok "reply"%string)
          "0"%string.

End Client.

(** ** Building and shipping a [DeploymentConfig] *)

Module Descriptor.
Import Config.

(** [os.path.isabs] and [os.path.join] (POSIX). *)
Definition isabs (p : string) : bool :=
  match p with
  | String c _ => Ascii.eqb c "/"%char
  | EmptyString => false
  end.

Fixpoint ends_with_sep (p : string) : bool :=
  match p with
  | EmptyString => false
  | String c EmptyString => Ascii.eqb c "/"%char
  | String _ rest => ends_with_sep rest
  end.

Definition path_join (a b : string) : string :=
  if isabs b then b
  else if String.eqb a "" || ends_with_sep a then (a ++ b)%string
  else (a ++ "/" ++ b)%string.

(** [needle in hay] on strings. *)
Fixpoint contains (needle hay : string) : bool :=
  if String.prefix needle hay then true
  else match hay with
       | EmptyString => false
       | String _ rest => contains needle rest
       end.

Definition with_deploy_rank (c : DeploymentConfig) (r : option (list Z)) : DeploymentConfig :=
  mkDeploymentConfig
    (deployment_name c) (load_with_sys_mem c) (meta_tensor c) (hf_auth_token c)
    r (torch_dist_port c) (replica_num c) (replica_configs c)
    (profile_model_time c) (skip_model_check c) (trust_remote_code c)
    (model c) (task c) (dtype c) (model_path c) (checkpoint_dict c) (max_tokens c)
    (GPU_index_map c)
    (enable_deepspeed c) (enable_zero c) (ds_config c) (tensor_parallel c)
    (enable_cuda_graph c) (replace_with_kernel_inject c).

Definition with_model_path (c : DeploymentConfig) (p : string) : DeploymentConfig :=
  mkDeploymentConfig
    (deployment_name c) (load_with_sys_mem c) (meta_tensor c) (hf_auth_token c)
    (deploy_rank c) (torch_dist_port c) (replica_num c) (replica_configs c)
    (profile_model_time c) (skip_model_check c) (trust_remote_code c)
    (model c) (task c) (dtype c) p (checkpoint_dict c) (max_tokens c)
    (GPU_index_map c)
    (enable_deepspeed c) (enable_zero c) (ds_config c) (tensor_parallel c)
    (enable_cuda_graph c) (replace_with_kernel_inject c).

Definition with_skip_model_check (c : DeploymentConfig) (b : bool) : DeploymentConfig :=
  mkDeploymentConfig
    (deployment_name c) (load_with_sys_mem c) (meta_tensor c) (hf_auth_token c)
    (deploy_rank c) (torch_dist_port c) (replica_num c) (replica_configs c)
    (profile_model_time c) b (trust_remote_code c)
    (model c) (task c) (dtype c) (model_path c) (checkpoint_dict c) (max_tokens c)
    (GPU_index_map c)
    (enable_deepspeed c) (enable_zero c) (ds_config c) (tensor_parallel c)
    (enable_cuda_graph c) (replace_with_kernel_inject c).

Definition dtype_eqb (a b : DtypeEnum) : bool :=
  match a, b with
  | fp16, fp16 | fp32, fp32 | bf16, bf16 | int8, int8 => true
  | _, _ => false
  end.

(** [@validator("checkpoint_dict")] *)
Definition checkpoint_dict_valid (field_value : option (list (string * pyval)))
    : result (option (list (string * pyval))) :=
  match field_value with
  | None => Ok None
  | Some d =>
    if truthy (dict_get d "base_dir" (PStr "")) then
      Raise (ValidationError
        "please unset 'base_dir' it will be set w.r.t. the deployment 'model_path'")
    else
      _ ← foldl (fun acc k =>
                   _ ← acc;
                   assert (truthy (dict_get d k (PStr "")))
                          (ValidationError ("Missing key=" ++ k ++ " in checkpoint_dict")))
                (Ok tt) ["checkpoints"; "parallelization"; "version"; "type"]%string;
      Ok (Some d)
  end.

(** [@root_validator zero_or_meta] *)
Definition zero_or_meta (values : DeploymentConfig) : result DeploymentConfig :=
  _ ← (if enable_zero values
       then assert (negb (meta_tensor values))
                   (ValidationError "ZeRO-Inference does not support meta tensors.")
       else Ok tt);
  Ok values.

(** [@root_validator bloom_model_valid] *)
Definition bloom_model_valid (values : DeploymentConfig) : result DeploymentConfig :=
  _ ← (if contains "bigscience/bloom" (model values) then
         _ ← assert (dtype_eqb (dtype values) int8 || dtype_eqb (dtype values) fp16)
                    (ValidationError "Bloom models only support fp16/int8.");
         assert (negb (enable_cuda_graph values))
                (ValidationError "Bloom models do not support CUDA Graph.")
       else Ok tt);
  Ok values.

(** [@root_validator deploy_rank_valid] *)
Definition deploy_rank_valid (values : DeploymentConfig) : result DeploymentConfig :=
  let tensor_parallel := tensor_parallel values in
  let deploy_rank :=
    match deploy_rank values with
    | None => Planner.range 0 tensor_parallel
    | Some r => r
    end in
  _ ← assert (tensor_parallel =? Z.of_nat (length deploy_rank))
             (DeployRankMismatch (Z.of_nat (length deploy_rank)) tensor_parallel);
  Ok (with_deploy_rank values (Some deploy_rank)).

(** [@root_validator meta_tensor_or_sys_mem] *)
Definition meta_tensor_or_sys_mem (values : DeploymentConfig) : result DeploymentConfig :=
  if meta_tensor values && load_with_sys_mem values then
    Raise (ValidationError
      "`meta_tensor` and `load_with_sys_mem` cannot be active at the same time.")
  else Ok values.

(** [values.get("ds_config").get("fp16", {}).get("enabled", False)] *)
Definition fp16_enabled (ds_config : list (string * pyval)) : result bool :=
  match dict_get ds_config "fp16" (PDict []) with
  | PDict d => Ok (truthy (dict_get d "enabled" (PBool false)))
  | _ => Raise AttributeError
  end.

(** [@root_validator zero_dtype_valid] *)
Definition zero_dtype_valid (values : DeploymentConfig) : result DeploymentConfig :=
  _ ← (if enable_zero values then
         en ← fp16_enabled (ds_config values);
         if en : bool then
           assert (dtype_eqb (dtype values) fp16)
                  (ValidationError "ZeRO FP16 enabled, `dtype` must be set to `torch.float16`")
         else
           assert (dtype_eqb (dtype values) fp32)
                  (ValidationError "ZeRO FP16 disabled, `dtype` must be set to `torch.float32`")
       else Ok tt);
  Ok values.

(** [@root_validator deepspeed_or_zero] *)
Definition deepspeed_or_zero (values : DeploymentConfig) : result DeploymentConfig :=
  _ ← assert (negb (enable_deepspeed values && enable_zero values))
             (ValidationError "DeepSpeed and ZeRO cannot both be enabled, select only one");
  Ok values.

Section Environment.

(** [mii.constants.MII_MODEL_PATH_DEFAULT], the environment variable
    [AZUREML_MODEL_DIR], and the two checks of [mii.utils]. *)
Variable MII_MODEL_PATH_DEFAULT : string.
Variable AZUREML_MODEL_DIR : option string.
Variable check_if_task_and_model_is_valid : TaskType -> string -> result unit.
Variable check_if_task_and_model_is_supported : TaskType -> string -> result unit.

(** [@root_validator set_model_path].  [DeploymentConfig] has no field
    [deployment_type], so [values.get("deployment_type")] is [None] and the
    default path is [MII_MODEL_PATH_DEFAULT]. *)
Definition set_model_path (values : DeploymentConfig) : result DeploymentConfig :=
  let model_path := model_path values in
  let model_path :=
    if String.eqb model_path "" then MII_MODEL_PATH_DEFAULT else model_path in
  let aml_model_dir := AZUREML_MODEL_DIR in
  model_path ←
    match aml_model_dir with
    | None => Ok model_path
    | Some dir =>
      if String.eqb dir "" then Ok model_path
      else
        _ ← assert (isabs dir)
                   (ValidationError "AZUREML_MODEL_DIR={aml_model_dir} must be an absolute path.");
        _ ← assert (negb (isabs model_path))
                   (ValidationError ("model_path=" ++ model_path ++
                                     " must be relative to append w/ AML path."));
        Ok (path_join dir model_path)
    end;
  Ok (with_model_path values model_path).

(** [@root_validator validate_model_and_task] *)
Definition validate_model_and_task (values : DeploymentConfig) : result DeploymentConfig :=
  let task := task values in
  let model := model values in
  _ ← (if negb (skip_model_check values) then
         _ ← check_if_task_and_model_is_valid task model;
         if enable_deepspeed values
         then check_if_task_and_model_is_supported task model
         else Ok tt
       else Ok tt);
  (* Skip any future checks *)
  Ok (with_skip_model_check values true).

(** Constructing a [DeploymentConfig] from keyword arguments: the field
    validator of [checkpoint_dict], then the root validators in the order of
    the class body.  The pre-validator [deploy_rank_to_list] wraps a bare
    rank into a list and leaves a list or [None], all that the field holds
    here, as it is.  The exception is the one of the first validator that
    fails. *)
Definition DeploymentConfig_init (kwargs : DeploymentConfig) : result DeploymentConfig :=
  _ ← checkpoint_dict_valid (checkpoint_dict kwargs);
  values ← zero_or_meta kwargs;
  values ← bloom_model_valid values;
  values ← deploy_rank_valid values;
  values ← set_model_path values;
  values ← validate_model_and_task values;
  values ← meta_tensor_or_sys_mem values;
  values ← zero_dtype_valid values;
  deepspeed_or_zero values.

(** The library calls on the way: pydantic's [.json()], [json.loads] followed
    by keyword unpacking, and the URL-safe base64 codec.  [str.encode] and
    [bytes.decode] do not change the text. *)
Variable json : DeploymentConfig -> string.
Variable json_loads : string -> result DeploymentConfig.
Variable urlsafe_b64encode : string -> string.
Variable urlsafe_b64decode : string -> result string.

(** [_initialize_service], lines "serialize mii config". *)
Definition serialize_config (mii_configs : DeploymentConfig) : string :=
  let json_bytes := json mii_configs in
  let b64_config_bytes := urlsafe_b64encode json_bytes in
  let b64_config_str := b64_config_bytes in
  b64_config_str.

(** [b64_encoded_config] of [mii/launch/multi_gpu_server.py]. *)
Definition b64_encoded_config (config_str : string) : result DeploymentConfig :=
  let b64_bytes := config_str in
  config_bytes ← urlsafe_b64decode b64_bytes;
  config_dict ← json_loads config_bytes;
  DeploymentConfig_init config_dict.

End Environment.

(** A deployment with a relative model path, as given on a machine where
    [AZUREML_MODEL_DIR] is /aml, and the configuration built from it there. *)
Definition aml_kwargs : DeploymentConfig :=
  with_model_path (Ports.deployment_of "m" 1 1) "model".

Definition aml_config : DeploymentConfig :=
  with_skip_model_check
    (with_model_path (with_deploy_rank aml_kwargs (Some [0])) "/aml/model") true.

End Descriptor.

(** ** The launched server: [main] of [mii/launch/multi_gpu_server.py] *)

Module Launch.
Import Config.

(** The parsed command line. *)
Record args : Type := mkArgs {
  deployment_config : option DeploymentConfig;
  mii_config : option MIIConfig;
  server_port : Z;
  load_balancer : bool;
  load_balancer_port : Z;
  restful_gateway : bool;
  restful_gateway_port : Z
}.

(** The defaults of the parser. *)
Definition default_args : args := mkArgs None None 0 false 0 false 0.

(** The service [main] goes on to run with these arguments; for an inference
    server it first loads the model with [load_models], which is outside this
    model. *)
Inductive service : Type :=
  | RestfulGateway (deployment_config : option DeploymentConfig) (lb_port rest_port : Z)
  | LoadBalancer (mii_config : option MIIConfig) (port : Z)
  | InferenceServer (deployment_config : option DeploymentConfig) (port : Z).

(** The assertions of [main]. *)
Inductive main_error : Type :=
  | SelectOnlyOne              (* Select only load-balancer OR restful-gateway. *)
  | RestfulGatewayPortMissing  (* --restful-gateway-port must be provided. *)
  | LoadBalancerPortMissing    (* --load-balancer-port must be provided. *)
  | ServerPortMissing.         (* --server-port must be provided. *)

(** [main]; [local_rank] is [int(os.getenv("LOCAL_RANK", "0"))]. *)
Definition main (a : args) (local_rank : Z) : main_error + service :=
  if load_balancer a && restful_gateway a then inl SelectOnlyOne
  else if restful_gateway a then
    if restful_gateway_port a =? 0 then inl RestfulGatewayPortMissing
    else inr (RestfulGateway (deployment_config a) (load_balancer_port a)
                             (restful_gateway_port a))
  else if load_balancer a then
    if load_balancer_port a =? 0 then inl LoadBalancerPortMissing
    else inr (LoadBalancer (mii_config a) (load_balancer_port a))
  else
    if server_port a =? 0 then inl ServerPortMissing
    else
      let port := server_port a + local_rank in
      inr (InferenceServer (deployment_config a) port).

End Launch.

(** ** [validate_deployment] of [mii/deployment.py] *)

Module Deployment.

(** Truthiness of an optional string argument. *)
Definition given (s : option string) : bool :=
  match s with
  | None => false
  | Some s => negb (String.eqb s "")
  end.

Inductive deployment_error (E : Type) : Type :=
  | MixedArguments          (* Do not input deployments and model/task/deployment_name ... *)
  | TagMissingMulti         (* deployment_tag must be set to for multiple models *)
  | TagMissingEmpty         (* deployment_tag must be set for an empty deployment *)
  | ScoreFileCallRejected   (* TypeError: create_score_file has no parameter mii_configs *)
  | SingleIncomplete        (* model, task, and deployment_name must be set for a single model *)
  | ConfigRejected (e : E). (* the constructor of DeploymentConfig raised *)
Arguments MixedArguments {E}.
Arguments TagMissingMulti {E}.
Arguments TagMissingEmpty {E}.
Arguments ScoreFileCallRejected {E}.
Arguments SingleIncomplete {E}.
Arguments ConfigRejected {E} e.

(** The pair [validate_deployment] returns. *)
Record validated (D : Type) : Type := mkValidated {
  v_deployment_tag : option string;
  v_deployments : list D
}.
Arguments mkValidated {D}.
Arguments v_deployment_tag {D}.
Arguments v_deployments {D}.

Section ValidateDeployment.

(** The deployments are opaque here; [make_config] is the call of the
    [DeploymentConfig] constructor for a single model, with the arguments of
    [validate_deployment] other than the three names already passed in.

    For an empty deployment the function calls [create_score_file] with the
    keyword [mii_configs]; [create_score_file] of
    [mii/models/score/generate.py] takes [deployment_tag], [deployment_type],
    [deployments], [model_path], [port_map], [lb_config] and [deployed], so
    the call raises a TypeError before anything is written or returned. *)
Variables (D E : Type).
Variable make_config : option string -> option string -> option string -> E + D.

Definition validate_deployment (task model deployment_name : option string)
    (deployment_tag : option string) (deployments : list D)
    : deployment_error E + validated D :=
  let any_given := given model || given task || given deployment_name in
  let all_given := given model && given task && given deployment_name in
  let have_deployments := negb (Nat.eqb (length deployments) 0) in
  if have_deployments && any_given then inl MixedArguments
  else if have_deployments then
    if given deployment_tag then inr (mkValidated deployment_tag deployments)
    else inl TagMissingMulti
  else if negb any_given then
    if given deployment_tag then inl ScoreFileCallRejected
    else inl TagMissingEmpty
  else if negb all_given then inl SingleIncomplete
  else
    match make_config deployment_name task model with
    | inl e => inl (ConfigRejected e)
    | inr d =>
      let deployment_tag :=
        match deployment_tag with
        | None => deployment_name
        | Some t => Some t
        end in
      inr (mkValidated deployment_tag [d])
    end.

End ValidateDeployment.

End Deployment.

(** * Theorems *)

Import Planner Config Ports.

(** ** The planner *)

Section PlannerFacts.

Variables (tp rn : Z).
Hypothesis tp_pos : 0 < tp.

(** The windows of one host from the k-th on. *)
Lemma windows_from_cons host slots k :
  0 <= k -> tp <= slots - k * tp ->
  map (window host tp) (seqZ k (slots / tp - k))
  = window host tp k :: map (window host tp) (seqZ (k + 1) (slots / tp - (k + 1))).
Proof using tp_pos.
  intros Hk Hle.
  assert (k + 1 <= slots / tp) by (apply Z.div_le_lower_bound; lia).
  rewrite seqZ_cons by lia. cbn [map].
  do 3 f_equal; lia.
Qed.

Lemma windows_from_nil host slots k :
  slots - k * tp < tp ->
  map (window host tp) (seqZ k (slots / tp - k)) = [].
Proof using tp_pos.
  intros Hlt.
  assert (slots / tp < k + 1) by (apply Z.div_lt_upper_bound; lia).
  rewrite seqZ_nil by lia. reflexivity.
Qed.

(** The while loop of one host, entered with [k] windows already carved:
    it appends the following windows, as many as replicas are missing. *)
Lemma carve_while_windows fuel host slots k st :
  0 <= k ->
  (Z.to_nat (rn - allocated_num st) < fuel)%nat ->
  let ws := take (Z.to_nat (rn - allocated_num st))
                 (map (window host tp) (seqZ k (slots / tp - k))) in
  carve_while fuel host slots tp rn (slots - k * tp) st
  = Some (Ok (Scan (allocated_num st + Z.of_nat (length ws)) (replica_pool st ++ ws))).
Proof using tp_pos.
  revert k st. induction fuel as [|fuel IH]; intros k st Hk Hfuel; [lia|].
  cbn [carve_while]. destruct st as [alloc rp]; cbn [allocated_num replica_pool] in *.
  destruct (Z.leb_spec tp (slots - k * tp)) as [Hle|Hgt].
  - destruct (Z.leb_spec rn alloc) as [Hdone|Hmore].
    + replace (Z.to_nat (rn - alloc)) with O by lia. cbn.
      rewrite Z.add_0_r, app_nil_r. reflexivity.
    + destruct (Z.ltb_spec slots tp) as [Hbad|_]; [nia|].
      rewrite (windows_from_cons host slots k) by assumption.
      replace (Z.to_nat (rn - alloc)) with (S (Z.to_nat (rn - (alloc + 1)))) by lia.
      cbn [take length].
      replace (slots - k * tp - tp) with (slots - (k + 1) * tp) by lia.
      specialize (IH (k + 1) (Scan (alloc + 1)
        (rp ++ [(host, range (slots - (slots - k * tp)) (slots - (slots - k * tp) + tp))]))).
      cbn [allocated_num replica_pool] in IH.
      rewrite IH by lia.
      rewrite <- app_assoc. cbn [app]. unfold window at 2.
      replace (slots - (slots - k * tp)) with (k * tp) by lia.
      replace (k * tp + tp) with ((k + 1) * tp) by lia.
      do 3 f_equal. lia.
  - rewrite windows_from_nil by lia. rewrite take_nil. cbn.
    rewrite Z.add_0_r, app_nil_r. reflexivity.
Qed.

(** Taking the first [n] windows of two hosts in a row. *)
Lemma take_two_hosts {A} (n : nat) (l1 l2 : list A) :
  take n (l1 ++ l2) = take n l1 ++ take (n - length (take n l1)) l2.
Proof.
  rewrite take_app, length_take. f_equal.
  destruct (Nat.le_gt_cases n (length l1)).
  - replace (n - length l1)%nat with O by lia.
    replace (n - n `min` length l1)%nat with O by lia. reflexivity.
  - f_equal. lia.
Qed.

(** The scan over the hosts appends the first missing windows of the
    catalog, host by host. *)
Lemma scan_hosts_windows pool st :
  let ws := take (Z.to_nat (rn - allocated_num st)) (flat_map (host_windows tp) pool) in
  scan_hosts pool tp rn st
  = Some (Ok (Scan (allocated_num st + Z.of_nat (length ws)) (replica_pool st ++ ws))).
Proof using tp_pos.
  revert st. induction pool as [|[host slots] rest IH]; intros st; cbn zeta.
  - cbn. rewrite take_nil. cbn. rewrite Z.add_0_r, app_nil_r. destruct st; reflexivity.
  - cbn [scan_hosts flat_map].
    pose proof (carve_while_windows (carve_fuel rn st) host slots 0 st) as Hw.
    cbn zeta in Hw. rewrite Z.mul_0_l, !Z.sub_0_r in Hw.
    rewrite Hw by (unfold carve_fuel; lia). clear Hw.
    rewrite IH. cbn [allocated_num replica_pool].
    change (host_windows tp (host, slots)) with (map (window host tp) (seqZ 0 (slots / tp))).
    set (l1 := map (window host tp) (seqZ 0 (slots / tp))).
    set (n := Z.to_nat (rn - allocated_num st)).
    rewrite (take_two_hosts n l1).
    set (w1 := take n l1).
    replace (Z.to_nat (rn - (allocated_num st + Z.of_nat (length w1))))
      with (n - length w1)%nat by lia.
    rewrite length_app, <- app_assoc. do 3 f_equal. lia.
Qed.

(** Automatic planning, in full. *)
Lemma allocate_auto pool :
  pool <> [] ->
  let plan := spec_plan pool tp rn in
  _allocate_processes pool tp rn None
  = Some (if Z.of_nat (length plan) <? rn
          then Raise (NotSufficientGPUs rn (Z.of_nat (length plan)))
          else Ok plan).
Proof using tp_pos.
  intros Hne. cbn zeta. unfold _allocate_processes.
  destruct pool as [|p pool']; [congruence|]. cbn [length Nat.eqb].
  rewrite scan_hosts_windows. cbn [allocated_num replica_pool].
  rewrite Z.sub_0_r, Z.add_0_l, app_nil_l. fold (spec_plan (p :: pool') tp rn).
  destruct (_ <? rn); reflexivity.
Qed.

End PlannerFacts.

(** The while loop terminates and never raises: once entered, the host has
    at least [tensor_parallel] slots. *)
Lemma carve_while_returns fuel host slots tp rn available st :
  (Z.to_nat (rn - allocated_num st) < fuel)%nat ->
  available = slots \/ tp <= slots ->
  exists st', carve_while fuel host slots tp rn available st = Some (Ok st').
Proof.
  revert available st. induction fuel as [|fuel IH]; intros available st Hfuel Hinv; [lia|].
  cbn [carve_while].
  destruct (Z.leb_spec tp available) as [Hle|Hgt]; [|eauto].
  destruct (Z.leb_spec rn (allocated_num st)) as [Hdone|Hmore]; [eauto|].
  destruct (Z.ltb_spec slots tp) as [Hbad|Hok]; [lia|].
  apply IH; cbn [allocated_num]; lia.
Qed.

Lemma scan_hosts_returns pool tp rn st :
  exists st', scan_hosts pool tp rn st = Some (Ok st').
Proof.
  revert st. induction pool as [|[host slots] rest IH]; intros st; cbn [scan_hosts]; [eauto|].
  destruct (carve_while_returns (carve_fuel rn st) host slots tp rn slots st) as [st' ->];
    [unfold carve_fuel; lia | now left | apply IH].
Qed.

(** A host with fewer slots than a replica needs leaves the scan as it was. *)
Lemma carve_while_small_host host slots tp rn st :
  slots < tp ->
  carve_while (carve_fuel rn st) host slots tp rn slots st = Some (Ok st).
Proof.
  intros Hsmall. unfold carve_fuel. cbn [carve_while].
  destruct (Z.leb_spec tp slots); [lia | reflexivity].
Qed.

Lemma scan_hosts_skips_small_host pre host slots post tp rn st :
  slots < tp ->
  scan_hosts (pre ++ (host, slots) :: post) tp rn st = scan_hosts (pre ++ post) tp rn st.
Proof.
  intros Hsmall. revert st.
  induction pre as [|[h s] pre IH]; intros st; cbn [app scan_hosts].
  - now rewrite carve_while_small_host.
  - destruct (carve_while _ h s tp rn s st) as [[st'|e]|]; [apply IH | reflexivity..].
Qed.

Lemma check_index_map_rejects pool tp (m : gpu_index_map) :
  Exists (fun hk => offending pool tp (fst hk)) m ->
  exists host, In host (map fst m) /\
    ((pool_get pool host = None /\
      check_index_map pool tp m = Raise (HostNotFound host)) \/
     (exists slots, pool_get pool host = Some slots /\ slots < tp /\
      check_index_map pool tp m = Raise (HostSlotsAssert host slots tp))).
Proof.
  induction m as [|[h idx] m IH]; intros Hex; [inversion Hex|].
  cbn [check_index_map map fst].
  destruct (pool_get pool h) as [slots|] eqn:Hget.
  - destruct (Z.leb_spec tp slots) as [Hok|Hbad].
    + inversion Hex as [? ? Hhere|? ? Hlater]; subst.
      * unfold offending in Hhere. cbn [fst] in Hhere. rewrite Hget in Hhere. lia.
      * destruct (IH Hlater) as (host & Hin & Hres).
        exists host. split; [now right | exact Hres].
    + exists h. split; [now left|]. right. exists slots. auto.
  - exists h. split; [now left|]. left. auto.
Qed.

(** C1. Without explicit placement and for a positive tensor-parallel degree,
    the scan over the catalog produces, host by host in catalog order, the
    windows [[k*tp, (k+1)*tp)] of each host, and stops after [replica_num] of
    them; when the catalog holds that many, they are the returned placement.
    For the catalog {h1: 4, h2: 2}, degree 2 and 3 replicas the placement is
    (h1,[0,1]), (h1,[2,3]), (h2,[0,1]). *)
Theorem planner_carves_windows_in_catalog_order (pool : resource_pool) (tp rn : Z) :
  0 < tp ->
  scan_hosts pool tp rn (Scan 0 [])
  = Some (Ok (Scan (Z.of_nat (length (spec_plan pool tp rn))) (spec_plan pool tp rn)))
  /\ (pool <> [] -> rn <= Z.of_nat (length (spec_plan pool tp rn)) ->
      _allocate_processes pool tp rn None = Some (Ok (spec_plan pool tp rn)))
  /\ _allocate_processes [("h1"%string, 4); ("h2"%string, 2)] 2 3 None
     = Some (Ok [("h1"%string, [0; 1]); ("h1"%string, [2; 3]); ("h2"%string, [0; 1])]).
Proof.
  intros Htp. split; [|split].
  - rewrite (scan_hosts_windows tp rn Htp). cbn [allocated_num replica_pool].
    rewrite Z.sub_0_r, Z.add_0_l, app_nil_l. reflexivity.
  - intros Hne Hcap. rewrite (allocate_auto tp rn Htp pool Hne). cbn zeta.
    destruct (Z.ltb_spec (Z.of_nat (length (spec_plan pool tp rn))) rn); [lia | reflexivity].
  - vm_compute. reflexivity.
Qed.

Lemma planner_carves_windows_in_catalog_order_witness :
  0 < 2 /\
  (scan_hosts [("h1"%string, 4); ("h2"%string, 2)] 2 3 (Scan 0 [])
   = Some (Ok (Scan (Z.of_nat (length (spec_plan [("h1"%string, 4); ("h2"%string, 2)] 2 3)))
                    (spec_plan [("h1"%string, 4); ("h2"%string, 2)] 2 3)))
   /\ ([("h1"%string, 4); ("h2"%string, 2)] <> [] ->
       3 <= Z.of_nat (length (spec_plan [("h1"%string, 4); ("h2"%string, 2)] 2 3)) ->
       _allocate_processes [("h1"%string, 4); ("h2"%string, 2)] 2 3 None
       = Some (Ok (spec_plan [("h1"%string, 4); ("h2"%string, 2)] 2 3)))
   /\ _allocate_processes [("h1"%string, 4); ("h2"%string, 2)] 2 3 None
      = Some (Ok [("h1"%string, [0; 1]); ("h1"%string, [2; 3]); ("h2"%string, [0; 1])])).
Proof.
  split; [lia|].
  apply (planner_carves_windows_in_catalog_order [("h1"%string, 4); ("h2"%string, 2)] 2 3).
  lia.
Defined.

(** C2, as the code does it.  Without explicit placement, when a catalog
    that is not empty yields fewer windows than [replica_num], the scan
    ends with all of them allocated and the planner raises the error that
    carries the requested number and the number allocated.  For the catalog
    {h1: 2}, degree 2 and 2 replicas one replica is allocated and the error
    carries 2 and 1.  An empty catalog is refused before any scan, with the
    assertion that no hosts were found, which carries no numbers. *)
Theorem planner_reports_insufficient_capacity (pool : resource_pool) (tp rn : Z) :
  0 < tp ->
  pool <> [] ->
  Z.of_nat (length (flat_map (host_windows tp) pool)) < rn ->
  scan_hosts pool tp rn (Scan 0 [])
  = Some (Ok (Scan (Z.of_nat (length (flat_map (host_windows tp) pool)))
                   (flat_map (host_windows tp) pool)))
  /\ _allocate_processes pool tp rn None
     = Some (Raise (NotSufficientGPUs rn (Z.of_nat (length (flat_map (host_windows tp) pool)))))
  /\ scan_hosts [("h1"%string, 2)] 2 2 (Scan 0 [])
     = Some (Ok (Scan 1 [("h1"%string, [0; 1])]))
  /\ _allocate_processes [("h1"%string, 2)] 2 2 None
     = Some (Raise (NotSufficientGPUs 2 1))
  /\ _allocate_processes [] tp rn None = Some (Raise NoHostsFound).
Proof.
  intros Htp Hne Hfew.
  assert (Hall : spec_plan pool tp rn = flat_map (host_windows tp) pool).
  { unfold spec_plan. apply take_ge. lia. }
  split; [|split; [|split; [|split]]]; [| | | |reflexivity].
  - rewrite (scan_hosts_windows tp rn Htp). cbn [allocated_num replica_pool].
    rewrite Z.sub_0_r, Z.add_0_l, app_nil_l.
    fold (spec_plan pool tp rn). rewrite Hall. reflexivity.
  - rewrite (allocate_auto tp rn Htp pool Hne). cbn zeta. rewrite Hall.
    destruct (Z.ltb_spec (Z.of_nat (length (flat_map (host_windows tp) pool))) rn);
      [reflexivity | lia].
  - vm_compute. reflexivity.
  - vm_compute. reflexivity.
Qed.

Lemma planner_reports_insufficient_capacity_witness :
  _allocate_processes [("h1"%string, 3); ("h2"%string, 1)] 2 4 None
  = Some (Raise (NotSufficientGPUs 4 1)).
Proof.
  refine (proj1 (proj2
    (planner_reports_insufficient_capacity [("h1"%string, 3); ("h2"%string, 1)] 2 4 _ _ _))).
  - lia.
  - discriminate.
  - vm_compute. reflexivity.
Defined.

(** C2, the claim as worded.  The empty catalog, degree 2 and 2 replicas:
    a scan of it would produce none of the 2 assignments, yet planning ends
    with the assertion that no hosts were found, not with the error that
    reports the 2 requested and the 0 allocated. *)
Lemma empty_catalog_fails_without_counts :
  scan_hosts [] 2 2 (Scan 0 []) = Some (Ok (Scan 0 []))
  /\ _allocate_processes [] 2 2 None = Some (Raise NoHostsFound)
  /\ NoHostsFound <> NotSufficientGPUs 2 0.
Proof. split; [reflexivity|]. split; [reflexivity | discriminate]. Qed.

(** C7, as the code does it.  In automatic mode a host with fewer slots
    than the tensor-parallel degree is passed over: the scan is the one of
    the catalog without it,
    and automatic planning returns a placement or fails for an empty catalog
    or for too few replicas, never for a host.  With a pinned placement and a
    catalog that is not empty, a pinned host that the catalog lacks, or
    that has fewer slots than the degree, fails the planning with the
    assertion that names this host and, for the slots, the number present
    and the number required.  With an empty catalog every pinned placement
    fails with the assertion that no hosts were found, which names no
    host. *)
Theorem small_host_skipped_pinned_host_rejected :
  (forall pre host slots post tp rn st,
      slots < tp ->
      scan_hosts (pre ++ (host, slots) :: post) tp rn st
      = scan_hosts (pre ++ post) tp rn st)
  /\ (forall pool tp rn,
         exists r, _allocate_processes pool tp rn None = Some r /\
           ((exists plan, r = Ok plan) \/ r = Raise NoHostsFound \/
            (exists allocated, r = Raise (NotSufficientGPUs rn allocated))))
  /\ (forall pool tp rn (m : gpu_index_map),
         pool <> [] ->
         Exists (fun hk => offending pool tp (fst hk)) m ->
         exists host, In host (map fst m) /\
           ((pool_get pool host = None /\
             _allocate_processes pool tp rn (Some m) = Some (Raise (HostNotFound host))) \/
            (exists slots, pool_get pool host = Some slots /\ slots < tp /\
             _allocate_processes pool tp rn (Some m)
             = Some (Raise (HostSlotsAssert host slots tp)))))
  /\ (forall tp rn (m : gpu_index_map),
         _allocate_processes [] tp rn (Some m) = Some (Raise NoHostsFound)).
Proof.
  split; [|split; [|split]]; [| | |reflexivity].
  - intros. now apply scan_hosts_skips_small_host.
  - intros pool tp rn. unfold _allocate_processes.
    destruct (Nat.eqb (length pool) 0); [eauto 6|].
    destruct (scan_hosts_returns pool tp rn (Scan 0 [])) as [st ->].
    destruct (allocated_num st <? rn); eauto 8.
  - intros pool tp rn m Hne Hex.
    destruct (check_index_map_rejects pool tp m Hex) as (host & Hin & Hres).
    exists host. split; [exact Hin|].
    unfold _allocate_processes.
    destruct pool as [|p pool']; [congruence|]. cbn [length Nat.eqb].
    destruct Hres as [[Hget ->]|(slots & Hget & Hlt & ->)]; [left | right; exists slots]; auto.
Qed.

Lemma small_host_skipped_pinned_host_rejected_witness :
  scan_hosts ([("h1"%string, 4)] ++ ("h2"%string, 1) :: [("h3"%string, 2)]) 2 3 (Scan 0 [])
  = scan_hosts ([("h1"%string, 4)] ++ [("h3"%string, 2)]) 2 3 (Scan 0 [])
  /\ exists host, In host (map fst [("h1"%string, [0; 1]); ("h9"%string, [0; 1])]) /\
       ((pool_get [("h1"%string, 4)] host = None /\
         _allocate_processes [("h1"%string, 4)] 2 2
            (Some [("h1"%string, [0; 1]); ("h9"%string, [0; 1])])
         = Some (Raise (HostNotFound host))) \/
        (exists slots, pool_get [("h1"%string, 4)] host = Some slots /\ slots < 2 /\
         _allocate_processes [("h1"%string, 4)] 2 2
            (Some [("h1"%string, [0; 1]); ("h9"%string, [0; 1])])
         = Some (Raise (HostSlotsAssert host slots 2)))).
Proof.
  split.
  - apply (proj1 small_host_skipped_pinned_host_rejected). lia.
  - apply (proj1 (proj2 (proj2 small_host_skipped_pinned_host_rejected))).
    + discriminate.
    + apply Exists_cons_tl, Exists_cons_hd. exact I.
Defined.

(** C7, the claim as worded.  The empty catalog and a placement that pins
    host h9: the host is absent from the catalog, yet planning ends with the
    assertion that no hosts were found, which does not name h9. *)
Lemma pinned_host_of_empty_catalog_not_named :
  pool_get [] "h9" = None
  /\ _allocate_processes [] 2 1 (Some [("h9"%string, [0; 1])]) = Some (Raise NoHostsFound)
  /\ NoHostsFound <> HostNotFound "h9".
Proof. split; [reflexivity|]. split; [reflexivity | discriminate]. Qed.

(** ** The port allocator *)

(** [max] of a non-empty list of ports. *)
Lemma fold_max_spec (l : list Z) :
  l <> [] ->
  exists m, foldr (fun x acc => Some (from_option (Z.max x) x acc)) None l = Some m
            /\ In m l /\ forall x, In x l -> x <= m.
Proof.
  induction l as [|a l IH]; [congruence|]. intros _. cbn [foldr].
  destruct l as [|b l].
  - exists a. cbn. split; [reflexivity|]. split; [now left|]. intros x [->|[]]. lia.
  - destruct IH as (m & -> & Hin & Hmax); [congruence|]. cbn [from_option].
    exists (Z.max a m). split; [reflexivity|]. split.
    + destruct (Z.max_spec a m) as [[_ ->]|[_ ->]]; [now right | now left].
    + intros x [->|Hx]; [lia|]. specialize (Hmax x Hx). lia.
Qed.

Lemma set_max_spec (s : gset Z) (p : Z) :
  p ∈ s -> exists m, set_max s = Some m /\ is_max s m.
Proof.
  intros Hp. unfold set_max.
  destruct (fold_max_spec (elements s)) as (m & Hm & Hin & Hmax).
  - intros Hnil. apply elem_of_elements in Hp. rewrite Hnil in Hp. inversion Hp.
  - exists m. split; [exact Hm|]. split.
    + apply elem_of_elements, list_elem_of_In, Hin.
    + intros x Hx. apply Hmax, list_elem_of_In, elem_of_elements, Hx.
Qed.

(** The last element of a list that is not empty does not depend on the
    default. *)
Lemma last_cons_default (x : Z) (l : list Z) (d d' : Z) :
  List.last (x :: l) d = List.last (x :: l) d'.
Proof.
  revert x. induction l as [|y l IH]; intros x; [reflexivity|].
  change (List.last (y :: l) d = List.last (y :: l) d'). apply IH.
Qed.

(** The inner loop adds the block to the set and leaves [i] at the last
    port of the block, or untouched when the block is empty. *)
Lemma add_ports_spec (block : list Z) (reserved : gset Z) (i : Z) :
  add_ports block reserved i = (reserved ∪ list_to_set block, List.last block i).
Proof.
  unfold add_ports. revert reserved i.
  induction block as [|p block IH]; intros reserved i.
  - cbn. f_equal. symmetry. apply (right_id_L ∅ (∪)).
  - cbn [foldl fst]. rewrite IH. f_equal.
    + cbn [list_to_set]. rewrite (comm_L (∪) {[p]} reserved), <- (assoc_L (∪)). reflexivity.
    + destruct block as [|z block]; [reflexivity|].
      change (List.last (z :: block) p = List.last (z :: block) i).
      apply last_cons_default.
Qed.

(** One replica: the block starts where the specification says, the block is
    added to the ports of the host, other hosts are untouched. *)
Lemma reserve_replica_spec coord pn tp tdp i host idx (pm : gmap string (gset Z)) :
  exists start,
    spec_start (reserved_on pm host) (pn + i * tp + 1) start /\
    reserve_replica coord pn 1 tp tdp i (host, idx) pm
    = Ok (mkReplicaConfig host (seqZ start tp)
                          (coord tdp (List.last (seqZ start tp) i)) idx,
          <[host := reserved_on pm host ∪ list_to_set (seqZ start tp)]> pm).
Proof.
  unfold reserve_replica. cbn [fst snd].
  set (pm1 := match pm !! host with None => <[host := ∅]> pm | Some _ => pm end).
  assert (Hres : default ∅ (pm1 !! host) = reserved_on pm host).
  { unfold pm1, reserved_on. destruct (pm !! host) eqn:E.
    - now rewrite E.
    - now rewrite lookup_insert_eq. }
  assert (Hins : forall s, <[host := s]> pm1 = <[host := s]> pm).
  { intros s. unfold pm1. destruct (pm !! host); [reflexivity|]. apply insert_insert_eq. }
  rewrite Hres.
  set (cand := pn + i * tp + 1).
  destruct (decide (cand ∈ reserved_on pm host)) as [Hin|Hout].
  - destruct (set_max_spec _ _ Hin) as (m & -> & Hmax).
    exists (m + 1). split.
    + right. split; [exact Hin|]. now replace (m + 1 - 1) with m by lia.
    + cbn. unfold range. replace (m + 1 + tp - (m + 1)) with tp by lia.
      rewrite add_ports_spec, Hins. reflexivity.
  - exists cand. split.
    + left. auto.
    + cbn. unfold range. replace (cand + tp - cand) with tp by lia.
      rewrite add_ports_spec, Hins. reflexivity.
Qed.

(** The loop over a placement in two parts. *)
Lemma replica_loop_app coord pn po tp tdp i l1 l2 pm acc :
  replica_loop coord pn po tp tdp i (l1 ++ l2) pm acc
  = match replica_loop coord pn po tp tdp i l1 pm acc with
    | Ok (rcs, pm') =>
      replica_loop coord pn po tp tdp (i + Z.of_nat (length l1)) l2 pm' rcs
    | Raise e => Raise e
    end.
Proof.
  revert i pm acc. induction l1 as [|a l1 IH]; intros i pm acc.
  - cbn. now rewrite Z.add_0_r.
  - cbn [app replica_loop length].
    destruct (reserve_replica coord pn po tp tdp i a pm) as [[rc pm']|e]; cbn; [|reflexivity].
    rewrite IH. replace (i + 1 + Z.of_nat (length l1)) with (i + Z.of_nat (S (length l1))) by lia.
    reflexivity.
Qed.

(** The loop never raises, and appends one configuration per replica. *)
Lemma replica_loop_returns coord pn tp tdp i pool pm acc :
  exists rcs pm',
    replica_loop coord pn 1 tp tdp i pool pm acc = Ok (acc ++ rcs, pm') /\
    length rcs = length pool.
Proof.
  revert i pm acc. induction pool as [|[host idx] pool IH]; intros i pm acc.
  - exists [], pm. cbn. now rewrite app_nil_r.
  - cbn [replica_loop].
    destruct (reserve_replica_spec coord pn tp tdp i host idx pm) as (s & _ & ->). cbn.
    edestruct IH as (rcs & pm' & -> & Hlen).
    eexists (_ :: rcs), pm'. rewrite <- app_assoc. cbn. split; [reflexivity | now rewrite Hlen].
Qed.

(** The loop over a placement, replica by replica: what replica [i] is
    given, in terms of the port map left by the replicas before it. *)
Lemma replica_loop_nth (coord : Z -> Z -> Z) (pn tp tdp : Z) (pool : list assignment)
    (pm : gmap string (gset Z)) :
  exists rcs pm_final,
    replica_loop coord pn 1 tp tdp 0 pool pm [] = Ok (rcs, pm_final) /\
    forall (i : nat) host idx,
      pool !! i = Some (host, idx) ->
      exists rcs_i pm_i start,
        replica_loop coord pn 1 tp tdp 0 (take i pool) pm [] = Ok (rcs_i, pm_i) /\
        spec_start (reserved_on pm_i host) (pn + Z.of_nat i * tp + 1) start /\
        rcs !! i = Some (mkReplicaConfig host (seqZ start tp)
                           (coord tdp (List.last (seqZ start tp) (Z.of_nat i))) idx) /\
        replica_loop coord pn 1 tp tdp 0 (take (S i) pool) pm []
        = Ok (rcs_i ++ [mkReplicaConfig host (seqZ start tp)
                          (coord tdp (List.last (seqZ start tp) (Z.of_nat i))) idx],
              <[host := reserved_on pm_i host ∪ list_to_set (seqZ start tp)]> pm_i).
Proof.
  destruct (replica_loop_returns coord pn tp tdp 0 pool pm []) as (rcs & pmf & Hloop & Hlen).
  cbn [app] in Hloop. exists rcs, pmf. split; [exact Hloop|].
  intros i host idx Hi.
  destruct (replica_loop_returns coord pn tp tdp 0 (take i pool) pm [])
    as (rcs_i & pm_i & Hpre & Hlen_i).
  cbn [app] in Hpre.
  destruct (reserve_replica_spec coord pn tp tdp (Z.of_nat i) host idx pm_i)
    as (start & Hstart & Hres).
  assert (Hi_len : length (take i pool) = i).
  { rewrite length_take. apply lookup_lt_Some in Hi. apply Nat.min_l, Nat.lt_le_incl, Hi. }
  set (rc := mkReplicaConfig host (seqZ start tp)
               (coord tdp (List.last (seqZ start tp) (Z.of_nat i))) idx) in *.
  exists rcs_i, pm_i, start.
  assert (Hstep : replica_loop coord pn 1 tp tdp 0 (take i pool ++ [(host, idx)]) pm []
                  = Ok (rcs_i ++ [rc],
                        <[host := reserved_on pm_i host ∪ list_to_set (seqZ start tp)]> pm_i)).
  { rewrite replica_loop_app, Hpre, Hi_len, Z.add_0_l. cbn [replica_loop].
    rewrite Hres. reflexivity. }
  split; [exact Hpre|]. split; [exact Hstart|]. split.
  - assert (Hpool : (take i pool ++ [(host, idx)]) ++ drop (S i) pool = pool).
    { rewrite <- app_assoc. apply take_drop_middle, Hi. }
    pose proof (replica_loop_app coord pn 1 tp tdp 0 (take i pool ++ [(host, idx)])
                  (drop (S i) pool) pm []) as Happ.
    rewrite Hpool, Hloop, Hstep in Happ.
    destruct (replica_loop_returns coord pn tp tdp
                (0 + Z.of_nat (length (take i pool ++ [(host, idx)])))
                (drop (S i) pool)
                (<[host := reserved_on pm_i host ∪ list_to_set (seqZ start tp)]> pm_i)
                (rcs_i ++ [rc])) as (rest & pm' & Hrest & _).
    rewrite Hrest in Happ. injection Happ as -> _.
    assert (Hrcs_i : length rcs_i = i) by congruence.
    rewrite <- app_assoc. rewrite lookup_app_r by lia.
    rewrite Hrcs_i, Nat.sub_diag. reflexivity.
  - rewrite (take_S_r pool i (host, idx) Hi). exact Hstep.
Qed.

(** C3. The loop over a placement never raises.  Replica [i] of the placement
    (0-based) gets the block of [tensor_parallel] consecutive ports that
    starts at the candidate [port_number + i * tensor_parallel + 1], or, when
    the candidate is already reserved for its host after the first [i]
    replicas, one above the largest port reserved for the host; the block is
    then added to the ports reserved for the host.  With base port 50000 and
    two replicas of two shards on one host, the replicas get the ports
    50001, 50002 and 50003, 50004. *)
Theorem port_block_of_each_replica :
  forall (coord : Z -> Z -> Z) (pn tp tdp : Z) (pool : list assignment)
         (pm : gmap string (gset Z)),
  (exists rcs pm_final,
    replica_loop coord pn 1 tp tdp 0 pool pm [] = Ok (rcs, pm_final) /\
    forall (i : nat) host idx,
      pool !! i = Some (host, idx) ->
      exists rcs_i pm_i rc start,
        replica_loop coord pn 1 tp tdp 0 (take i pool) pm [] = Ok (rcs_i, pm_i) /\
        rcs !! i = Some rc /\
        hostname rc = host /\ gpu_indices rc = idx /\
        spec_start (reserved_on pm_i host) (pn + Z.of_nat i * tp + 1) start /\
        tensor_parallel_ports rc = seqZ start tp /\
        replica_loop coord pn 1 tp tdp 0 (take (S i) pool) pm []
        = Ok (rcs_i ++ [rc],
              <[host := reserved_on pm_i host ∪ list_to_set (seqZ start tp)]> pm_i))
  /\ (exists values,
        generate_replica_configs
          (mkMIIConfig [("m"%string, deployment_of "m" 2 2)] 50000 [("h"%string, 4)] ∅)
        = Some (Ok values) /\
        shard_ports values
        = [("m"%string, [("h"%string, [50001; 50002]); ("h"%string, [50003; 50004])])])
  /\ (exists rcs pm',
        allocate_processes [mkDeployment [("h"%string, 4)] 2 2 None] ∅ 50000 29500 []
        = Some (Ok (rcs, pm')) /\
        map tensor_parallel_ports rcs = [[50001; 50002]; [50003; 50004]]).
Proof.
  intros coord pn tp tdp pool pm. split; [|split].
  - destruct (replica_loop_nth coord pn tp tdp pool pm) as (rcs & pmf & Hloop & Hnth).
    exists rcs, pmf. split; [exact Hloop|].
    intros i host idx Hi.
    destruct (Hnth i host idx Hi) as (rcs_i & pm_i & start & Hpre & Hstart & Hrc & Hstep).
    eexists rcs_i, pm_i, _, start. repeat split; eauto.
  - eexists. split; [vm_compute; reflexivity|]. vm_compute. reflexivity.
  - eexists _, _. split; [vm_compute; reflexivity|]. vm_compute. reflexivity.
Qed.

Lemma port_block_of_each_replica_witness :
  exists rcs pm_final,
    replica_loop coord_config 50000 1 2 29500 0
                 [("h"%string, [0; 1]); ("h"%string, [2; 3])] ∅ [] = Ok (rcs, pm_final) /\
    exists rcs_i pm_i rc start,
      replica_loop coord_config 50000 1 2 29500 0
                   (take 1 [("h"%string, [0; 1]); ("h"%string, [2; 3])]) ∅ []
      = Ok (rcs_i, pm_i) /\
      rcs !! 1%nat = Some rc /\
      hostname rc = "h"%string /\ gpu_indices rc = [2; 3] /\
      spec_start (reserved_on pm_i "h") (50000 + Z.of_nat 1 * 2 + 1) start /\
      tensor_parallel_ports rc = seqZ start 2.
Proof.
  destruct (proj1 (port_block_of_each_replica coord_config 50000 2 29500
                     [("h"%string, [0; 1]); ("h"%string, [2; 3])] ∅))
    as (rcs & pm_final & Hloop & Hnth).
  exists rcs, pm_final. split; [exact Hloop|].
  destruct (Hnth 1%nat "h"%string [2; 3] eq_refl)
    as (rcs_i & pm_i & rc & start & Hpre & Hrc & Hhost & Hidx & Hstart & Hports & _).
  exists rcs_i, pm_i, rc, start. auto 10.
Defined.

(** The last port of a block that is not empty. *)
Lemma last_seqZ (start tp d : Z) :
  0 < tp -> List.last (seqZ start tp) d = start + tp - 1.
Proof.
  intros Htp. replace tp with ((tp - 1) + 1) at 1 by lia.
  rewrite seqZ_app by lia. change (seqZ (start + (tp - 1)) 1) with [start + (tp - 1)].
  rewrite List.last_last. lia.
Qed.

(** C4, at the input where it fails.  Two deployments share the host file
    {h1: 1, h2: 2}: A with one shard and two replicas, B with two shards and
    one replica, base port 50050.  A reserves 50051 on h1 and 50052 on h2.  For
    B's replica on h2 the candidate 50051 is free on h2, so its block is
    50051, 50052, and 50052 is already reserved on h2.  The same happens in
    [allocate_processes]. *)
Theorem shared_host_block_overlaps :
  (exists values,
     generate_replica_configs
       (mkMIIConfig [("A"%string, deployment_of "A" 1 2); ("B"%string, deployment_of "B" 2 1)]
                    50050 [("h1"%string, 1); ("h2"%string, 2)] ∅)
     = Some (Ok values) /\
     shard_ports values
     = [("A"%string, [("h1"%string, [50051]); ("h2"%string, [50052])]);
        ("B"%string, [("h2"%string, [50051; 50052])])])
  /\ (exists rc pm',
        reserve_replica coord_config 50050 1 2 29500 0 ("h2"%string, [0; 1])
                        {[ "h1"%string := {[ 50051 ]}; "h2"%string := {[ 50052 ]} ]}
        = Ok (rc, pm') /\
        tensor_parallel_ports rc = [50051; 50052] /\
        50052 ∈ reserved_on ({[ "h1"%string := {[ 50051 ]}; "h2"%string := {[ 50052 ]} ]}
                               : gmap string (gset Z)) "h2")
  /\ (exists rcs pm',
        allocate_processes
          [mkDeployment [("h1"%string, 1); ("h2"%string, 2)] 1 2 None;
           mkDeployment [("h1"%string, 1); ("h2"%string, 2)] 2 1 None] ∅ 50050 29500 []
        = Some (Ok (rcs, pm')) /\
        map (fun rc => (hostname rc, tensor_parallel_ports rc)) rcs
        = [("h1"%string, [50051]); ("h2"%string, [50052]); ("h2"%string, [50051; 50052])]).
Proof.
  split; [|split].
  - eexists. split; [vm_compute; reflexivity|]. vm_compute. reflexivity.
  - eexists _, _. split; [vm_compute; reflexivity|]. split; [reflexivity|].
    vm_compute. reflexivity.
  - eexists _, _. split; [vm_compute; reflexivity|]. vm_compute. reflexivity.
Qed.

(** C6, as the code computes it.  When the coordination port of a replica is
    computed, [i] no longer holds the index of the replica but the last port
    of its block: for a positive tensor-parallel degree the coordination port
    of [generate_replica_configs] is [torch_dist_port + 100 * p], and the one
    of [allocate_processes] is [torch_dist_port + p], with [p] the last shard
    port of the replica.  With the defaults (base port 50050, coordination
    base 29500) a single replica of one shard gets 5034600, where the
    specification gives 29500. *)
Theorem coordination_port_from_last_shard_port
    (pn tp tdp : Z) (pool : list assignment) (pm : gmap string (gset Z))
    (i : nat) (host : string) (idx : list Z) :
  0 < tp ->
  pool !! i = Some (host, idx) ->
  (exists rcs pm' rc,
     replica_loop coord_config pn 1 tp tdp 0 pool pm [] = Ok (rcs, pm') /\
     rcs !! i = Some rc /\
     tensor_parallel_ports rc <> [] /\
     replica_torch_dist_port rc = tdp + 100 * List.last (tensor_parallel_ports rc) 0)
  /\ (exists rcs pm' rc,
        replica_loop coord_deployment pn 1 tp tdp 0 pool pm [] = Ok (rcs, pm') /\
        rcs !! i = Some rc /\
        replica_torch_dist_port rc = tdp + List.last (tensor_parallel_ports rc) 0)
  /\ (exists values,
        generate_replica_configs
          (mkMIIConfig [("m"%string, deployment_of "m" 1 1)] 50050 [("h"%string, 1)] ∅)
        = Some (Ok values) /\
        shard_ports values = [("m"%string, [("h"%string, [50051])])] /\
        coordination_ports values = [("m"%string, [5034600])])
  /\ (exists rcs pm',
        allocate_processes [mkDeployment [("h"%string, 1)] 1 1 None] ∅ 50050 29500 []
        = Some (Ok (rcs, pm')) /\
        map replica_torch_dist_port rcs = [79551]).
Proof.
  intros Htp Hi. split; [|split; [|split]].
  - destruct (replica_loop_nth coord_config pn tp tdp pool pm) as (rcs & pm' & Hloop & Hnth).
    destruct (Hnth i host idx Hi) as (rcs_i & pm_i & start & _ & _ & Hrc & _).
    eexists rcs, pm', _. split; [exact Hloop|]. split; [exact Hrc|].
    cbn [tensor_parallel_ports replica_torch_dist_port]. split.
    + rewrite seqZ_cons by lia. discriminate.
    + unfold coord_config. now rewrite !last_seqZ by lia.
  - destruct (replica_loop_nth coord_deployment pn tp tdp pool pm) as (rcs & pm' & Hloop & Hnth).
    destruct (Hnth i host idx Hi) as (rcs_i & pm_i & start & _ & _ & Hrc & _).
    eexists rcs, pm', _. split; [exact Hloop|]. split; [exact Hrc|].
    cbn [tensor_parallel_ports replica_torch_dist_port].
    unfold coord_deployment. now rewrite !last_seqZ by lia.
  - eexists. split; [vm_compute; reflexivity|]. split; vm_compute; reflexivity.
  - eexists _, _. split; [vm_compute; reflexivity|]. vm_compute. reflexivity.
Qed.

Lemma coordination_port_from_last_shard_port_witness :
  exists rcs pm' rc,
    replica_loop coord_config 50000 1 2 29500 0
                 [("h"%string, [0; 1]); ("h"%string, [2; 3])] ∅ [] = Ok (rcs, pm') /\
    rcs !! 1%nat = Some rc /\
    tensor_parallel_ports rc <> [] /\
    replica_torch_dist_port rc = 29500 + 100 * List.last (tensor_parallel_ports rc) 0.
Proof.
  refine (proj1 (coordination_port_from_last_shard_port 50000 2 29500
            [("h"%string, [0; 1]); ("h"%string, [2; 3])] ∅ 1 "h" [2; 3] _ _)).
  - lia.
  - reflexivity.
Defined.

(** ** The client *)

Import Client.

Lemma turns_left_turn (t : task_state) : turns_left (turn t) = pred (turns_left t).
Proof. destruct t as [[|n] r|r]; reflexivity. Qed.

Lemma task_result_turn (t : task_state) : task_result (turn t) = task_result t.
Proof. destruct t as [[|n] r|r]; reflexivity. Qed.

(** Once the first task is done, its outcome is the answer, whatever the
    other tasks are doing; every task has advanced by the turns the first
    one needed. *)
Lemma await_first_outcome (fuel : nat) (first : task_state) (others : list task_state) :
  (turns_left first <= fuel)%nat ->
  await_first fuel (first :: others)
  = Some (task_result first, map (Nat.iter (turns_left first) turn) (first :: others)).
Proof.
  revert first others. induction fuel as [|fuel IH]; intros first others Hfuel.
  - destruct first as [n r|r]; cbn in Hfuel; [lia|].
    cbn [await_first turns_left task_result]. do 2 f_equal.
    symmetry. apply map_id.
  - destruct first as [n r|r].
    + cbn [await_first]. change (map turn (Pending n r :: others))
        with (turn (Pending n r) :: map turn others).
      rewrite IH by (rewrite turns_left_turn; cbn in *; lia).
      rewrite task_result_turn, turns_left_turn. cbn [turns_left pred].
      do 2 f_equal. change (turn (Pending n r) :: map turn others)
        with (map turn (Pending n r :: others)).
      rewrite map_map. apply map_ext. intros t. now rewrite Nat.iter_succ_r.
    + cbn [await_first turns_left task_result]. do 2 f_equal.
      symmetry. apply map_id.
Qed.

Lemma shards_first_rest (n : Z) :
  0 < n -> seq 0 (Z.to_nat n) = O :: seq 1 (Z.to_nat n - 1).
Proof.
  intros Hn. destruct (Z.to_nat n) as [|k] eqn:E; [lia|].
  cbn. now rewrite Nat.sub_0_r.
Qed.

(** The answer of a query over the gRPC stubs and the tasks it leaves on
    the loop, in a world that agrees with [w] on the stub of shard 0. *)
Lemma dispatch_first_shard (fuel : nat) (w w0 : world) (self : MIIServerClient)
    (request_dict : list (string * pyval)) :
  0 < num_gpus self ->
  (forall m r, rpc w0 0%nat m r = rpc w 0%nat m r) ->
  (turns_left (_request_async_response w (task self) 0 request_dict) <= fuel)%nat ->
  _query_in_tensor_parallel fuel w0 self request_dict
  = Some (task_result (_request_async_response w (task self) 0 request_dict),
          map (fun i => Nat.iter
                          (turns_left (_request_async_response w (task self) 0 request_dict))
                          turn (_request_async_response w0 (task self) i request_dict))
              (seq 0 (Z.to_nat (num_gpus self)))).
Proof.
  intros Hgpus Hsame Hfuel. unfold _query_in_tensor_parallel.
  assert (Hfirst : _request_async_response w0 (task self) 0 request_dict
                   = _request_async_response w (task self) 0 request_dict).
  { unfold _request_async_response.
    destruct (build_request (task self) request_dict) as [[m r]|e]; [|reflexivity].
    now rewrite Hsame. }
  rewrite <- (map_map (fun i => _request_async_response w0 (task self) i request_dict)
                      (Nat.iter _ turn)).
  rewrite (shards_first_rest _ Hgpus). cbn [map].
  rewrite Hfirst. now apply await_first_outcome.
Qed.

(** C5, as the code does it.  A query over the gRPC stubs creates one task
    per shard, task [i] calling the stub of shard [i], and awaits the task
    of shard 0 only: when that task is done the query ends with what it
    ended with, its reply or the very exception it raised, which is not
    wrapped in an error of the client and names no shard.  The tasks of the
    other shards have advanced by the turns shard 0 needed and stay on the
    loop, neither awaited nor cancelled; whether they reply, fail or are
    still running does not change the answer.  When shard 0 fails and shard
    1 replies, the query raises the exception of shard 0. *)
Theorem query_answers_with_first_shard
    (fuel : nat) (w : world) (self : MIIServerClient) (request_dict : list (string * pyval)) :
  use_grpc_server self = true ->
  initialize_grpc_client self = true ->
  0 < num_gpus self ->
  (turns_left (_request_async_response w (task self) 0 request_dict) <= fuel)%nat ->
  _query_in_tensor_parallel fuel w self request_dict
  = Some (task_result (_request_async_response w (task self) 0 request_dict),
          map (fun i => Nat.iter
                          (turns_left (_request_async_response w (task self) 0 request_dict))
                          turn (_request_async_response w (task self) i request_dict))
              (seq 0 (Z.to_nat (num_gpus self))))
  /\ query fuel w self request_dict
     = Some (task_result (_request_async_response w (task self) 0 request_dict))
  /\ (forall w' : world,
         (forall m r, rpc w' 0%nat m r = rpc w 0%nat m r) ->
         query fuel w' self request_dict = query fuel w self request_dict)
  /\ (forall m r e, build_request (task self) request_dict = Ok (m, r) ->
                    outcome (rpc w 0%nat m r) = Raise e ->
                    query fuel w self request_dict = Some (Raise e))
  /\ query 1 first_shard_down
           (mkClient TEXT_GENERATION 2 true false true 50050 None [50050; 50051])
           [("query"%string, PStr "hello")]
     = Some (Raise (RemoteError "connection refused")).
Proof.
  intros Hgrpc Hclient Hgpus Hfuel.
  assert (Hq : forall w0 : world,
             (forall m r, rpc w0 0%nat m r = rpc w 0%nat m r) ->
             query fuel w0 self request_dict
             = Some (task_result (_request_async_response w (task self) 0 request_dict))).
  { intros w0 Hsame. unfold query. rewrite Hgrpc, Hclient. cbn [negb].
    now rewrite (dispatch_first_shard fuel w w0 self request_dict Hgpus Hsame Hfuel). }
  split; [|split; [|split; [|split]]].
  - now apply dispatch_first_shard.
  - now apply Hq.
  - intros w' Hsame. rewrite (Hq w' Hsame). symmetry. now apply Hq.
  - intros m r e Hbuild Hout. rewrite (Hq w) by reflexivity.
    unfold _request_async_response. rewrite Hbuild. cbn [task_result]. now rewrite Hout.
  - vm_compute. reflexivity.
Qed.

Lemma query_answers_with_first_shard_witness :
  _query_in_tensor_parallel 3 first_shard_down
    (mkClient QUESTION_ANSWERING 2 true false true 50050 None [50050; 50051])
    [("question"%string, PStr "who"); ("context"%string, PStr "text")]
  = Some (Raise (RemoteError "connection refused"),
          [Done (Raise (RemoteError "connection refused"));
           Done (Ok "reply of shard 1"%string)]).
Proof.
  refine (proj1 (query_answers_with_first_shard 3 first_shard_down
            (mkClient QUESTION_ANSWERING 2 true false true 50050 None [50050; 50051])
            [("question"%string, PStr "who"); ("context"%string, PStr "text")] _ _ _ _)).
  - reflexivity.
  - reflexivity.
  - reflexivity.
  - vm_compute. lia.
Defined.

(** C5, the claim as worded.  Shard 0 refuses the connection and shard 1
    replies: the query raises the exception of the call on the stub of
    shard 0 itself.  The client has no error of its own for a failed
    dispatch: nothing wraps the exception or records the shard. *)
Lemma first_shard_exception_raised_as_it_is :
  query 1 first_shard_down
        (mkClient TEXT_GENERATION 2 true false true 50050 None [50050; 50051])
        [("query"%string, PStr "hello")]
  = Some (outcome (rpc first_shard_down 0%nat GeneratorReply
                       (SingleStringRequest (PStr "hello"))))
  /\ outcome (rpc first_shard_down 0%nat GeneratorReply (SingleStringRequest (PStr "hello")))
     = Raise (RemoteError "connection refused")
  /\ outcome (rpc first_shard_down 1%nat GeneratorReply (SingleStringRequest (PStr "hello")))
     = Ok "reply of shard 1"%string.
Proof. repeat split. Qed.

(** The wait loop from a poll [t] on, when the next [n] polls find the port
    closed and the process running. *)
Lemma wait_through_quiet_polls (w : world) (process : option Popen) (port : Z)
    (n fuel t : nat) (sleeps : list Z) :
  (forall k, (k < n)%nat ->
     socket_open w (t + k) port = false /\ _is_server_process_alive w process (t + k) = true) ->
  (n <= fuel)%nat ->
  _wait_until_server_is_live fuel w process port t sleeps
  = _wait_until_server_is_live (fuel - n) w process port (t + n) (sleeps ++ replicate n 4).
Proof.
  revert fuel t sleeps. induction n as [|n IH]; intros fuel t sleeps Hquiet Hfuel.
  - cbn. now rewrite Nat.sub_0_r, Nat.add_0_r, app_nil_r.
  - destruct fuel as [|fuel]; [lia|]. cbn [_wait_until_server_is_live].
    destruct (Hquiet O ltac:(lia)) as [Hclosed Halive]. rewrite Nat.add_0_r in Hclosed, Halive.
    rewrite Hclosed, Halive. cbn [negb].
    rewrite IH.
    + cbn [Nat.sub replicate]. rewrite <- app_assoc. cbn [app].
      now replace (S t + n)%nat with (t + S n)%nat by lia.
    + intros k Hk. replace (S t + k)%nat with (t + S k)%nat by lia. apply Hquiet. lia.
    + lia.
Qed.

(** C8, as the code does it.  The wait polls the base port and the launched
    process, and sleeps 4 seconds after every poll.  After [n] polls that
    find the base port closed and the process running: if the next poll
    finds the process exited, the wait raises, also when the base port is
    open by then; if it finds the process running and the base port open,
    the wait returns, having slept [n + 1] times 4 seconds.  No other port
    is looked at: a world that differs only on other ports gives the same
    outcome. *)
Theorem wait_polls_base_port_and_process
    (fuel : nat) (w : world) (process : option Popen) (port : Z) (n : nat) :
  (forall t, (t < n)%nat ->
     socket_open w t port = false /\ _is_server_process_alive w process t = true) ->
  (n < fuel)%nat ->
  (_is_server_process_alive w process n = false ->
   _wait_until_server_is_live fuel w process port 0 [] = Some (Raise ServerCrashed))
  /\ (_is_server_process_alive w process n = true ->
      socket_open w n port = true ->
      _wait_until_server_is_live fuel w process port 0 [] = Some (Ok (replicate (S n) 4)))
  /\ (forall w' : world,
         (forall t, socket_open w' t port = socket_open w t port) ->
         (forall t, process_exited w' t = process_exited w t) ->
         _wait_until_server_is_live fuel w' process port 0 []
         = _wait_until_server_is_live fuel w process port 0 []).
Proof.
  intros Hquiet Hfuel.
  pose proof (wait_through_quiet_polls w process port n fuel 0 [] Hquiet ltac:(lia)) as Hrun.
  cbn [Nat.add app] in Hrun.
  destruct (fuel - n)%nat as [|rest] eqn:Hrest; [lia|].
  cbn [_wait_until_server_is_live] in Hrun.
  split; [|split].
  - intros Hdead. rewrite Hrun, Hdead. reflexivity.
  - intros Halive Hopen. rewrite Hrun, Halive, Hopen. cbn [negb].
    replace (S n) with (n + 1)%nat by lia. now rewrite replicate_add.
  - intros w' Hports Hproc. clear Hquiet Hfuel Hrun Hrest.
    generalize (@nil Z) as sleeps. generalize O as t.
    induction fuel as [|fuel IH]; intros t sleeps; [reflexivity|].
    cbn [_wait_until_server_is_live]. rewrite Hports.
    assert (Halive : _is_server_process_alive w' process t = _is_server_process_alive w process t).
    { unfold _is_server_process_alive. destruct process; [now rewrite Hproc | reflexivity]. }
    rewrite Halive. destruct (negb _); [reflexivity|].
    destruct (socket_open w t port); [reflexivity|]. apply IH.
Qed.

Lemma wait_polls_base_port_and_process_witness :
  _wait_until_server_is_live 5
    (mkWorld 2 (fun _ => false) (fun t port => Nat.leb 2 t && (port =? 50050))
             (fun _ => false) (fun _ _ _ => replies 0 (Ok "reply"%string))
             (fun _ _ => Ok "reply"%string) "0"%string)
    (Some LaunchedServer) 50050 0 []
  = Some (Ok (replicate 3 4)).
Proof.
  refine (proj1 (proj2 (wait_polls_base_port_and_process 5
    (mkWorld 2 (fun _ => false) (fun t port => Nat.leb 2 t && (port =? 50050))
             (fun _ => false) (fun _ _ _ => replies 0 (Ok "reply"%string))
             (fun _ _ => Ok "reply"%string) "0"%string)
    (Some LaunchedServer) 50050 2 _ _)) _ _).
  - intros t Ht. destruct t as [|[|t]]; [split; reflexivity | split; reflexivity | lia].
  - lia.
  - reflexivity.
  - reflexivity.
Defined.

(** C8, where the specification fails: a server of two shards whose second port
    never opens and whose process exits after the first poll.  The first
    poll finds port 50050 open and the process running, so the wait
    returns, though nothing listens on port 50051. *)
Lemma live_with_unreachable_shard :
  _wait_until_server_is_live 3 half_open_world (Some LaunchedServer) 50050 0 [] = Some (Ok [4])
  /\ (forall t, socket_open half_open_world t 50051 = false)
  /\ process_exited half_open_world 1 = true.
Proof.
  split; [reflexivity|]. split; [intros t; reflexivity|]. reflexivity.
Qed.


(** ** Shipping a configuration to the launched server *)

Import Descriptor.

(** What each root validator returns when it does not raise. *)
Lemma zero_or_meta_ok values values' :
  zero_or_meta values = Ok values' -> values' = values.
Proof.
  unfold zero_or_meta, assert. destruct (enable_zero values); cbn;
    [destruct (negb (meta_tensor values)); cbn|]; congruence.
Qed.

Lemma bloom_model_valid_ok values values' :
  bloom_model_valid values = Ok values' -> values' = values.
Proof.
  unfold bloom_model_valid, assert.
  destruct (contains _ _); cbn; [|congruence].
  destruct (_ || _); cbn; [|congruence].
  destruct (negb _); cbn; congruence.
Qed.

Lemma deploy_rank_valid_ok values values' :
  deploy_rank_valid values = Ok values' ->
  exists r, values' = with_deploy_rank values (Some r) /\
            tensor_parallel values = Z.of_nat (length r).
Proof.
  unfold deploy_rank_valid, assert.
  destruct (Z.eqb_spec (tensor_parallel values)
              (Z.of_nat (length match deploy_rank values with
                                | Some r => r
                                | None => Planner.range 0 (tensor_parallel values)
                                end))) as [Heq|]; cbn; [|congruence].
  intros [= <-]. eauto.
Qed.

Lemma isabs_path_join dir p :
  isabs dir = true -> isabs (path_join dir p) = true.
Proof.
  intros Hdir. unfold path_join. destruct (isabs p) eqn:Hp; [exact Hp|].
  destruct dir as [|c dir]; [discriminate|].
  destruct (_ || _); exact Hdir.
Qed.

Section RoundTrip.

Variable MII_MODEL_PATH_DEFAULT : string.
Variable check_if_task_and_model_is_valid : TaskType -> string -> result unit.
Variable check_if_task_and_model_is_supported : TaskType -> string -> result unit.

Lemma set_model_path_aml_ok dir values values' :
  dir <> ""%string -> isabs dir = true ->
  set_model_path MII_MODEL_PATH_DEFAULT (Some dir) values = Ok values' ->
  exists p, values' = with_model_path values p /\ isabs p = true.
Proof.
  intros Hne Habs. unfold set_model_path, assert.
  destruct (String.eqb_spec dir "") as [|_]; [congruence|].
  rewrite Habs. cbn.
  destruct (negb (isabs _)); cbn; [|congruence].
  intros [= <-]. eexists. split; [reflexivity|]. now apply isabs_path_join.
Qed.

Lemma validate_model_and_task_ok values values' :
  validate_model_and_task check_if_task_and_model_is_valid
                          check_if_task_and_model_is_supported values = Ok values' ->
  values' = with_skip_model_check values true.
Proof.
  unfold validate_model_and_task.
  destruct (negb (skip_model_check values)); cbn; [|congruence].
  destruct (check_if_task_and_model_is_valid _ _); cbn; [|congruence].
  destruct (enable_deepspeed values); cbn; [|congruence].
  destruct (check_if_task_and_model_is_supported _ _); cbn; congruence.
Qed.

(** A configuration built while [AZUREML_MODEL_DIR] is set has an absolute
    [model_path], and building it again from its own fields fails in
    [set_model_path]. *)
Lemma init_again_fails_under_aml_dir dir kwargs cfg :
  dir <> ""%string -> isabs dir = true ->
  DeploymentConfig_init MII_MODEL_PATH_DEFAULT (Some dir)
    check_if_task_and_model_is_valid check_if_task_and_model_is_supported kwargs = Ok cfg ->
  isabs (model_path cfg) = true /\
  DeploymentConfig_init MII_MODEL_PATH_DEFAULT (Some dir)
    check_if_task_and_model_is_valid check_if_task_and_model_is_supported cfg
  = Raise (ValidationError ("model_path=" ++ model_path cfg ++
                            " must be relative to append w/ AML path.")).
Proof.
  intros Hne Habs. unfold DeploymentConfig_init at 1.
  destruct (checkpoint_dict_valid (checkpoint_dict kwargs)) as [cd|] eqn:Hcd; cbn [mbind result_bind]; [|congruence].
  destruct (zero_or_meta kwargs) as [v1|] eqn:H1; cbn [mbind result_bind]; [|congruence].
  pose proof H1 as H1'. apply zero_or_meta_ok in H1' as ->.
  destruct (bloom_model_valid kwargs) as [v2|] eqn:H2; cbn [mbind result_bind]; [|congruence].
  pose proof H2 as H2'. apply bloom_model_valid_ok in H2' as ->.
  destruct (deploy_rank_valid kwargs) as [v3|] eqn:H3; cbn [mbind result_bind]; [|congruence].
  destruct (deploy_rank_valid_ok _ _ H3) as (r & -> & Hlen).
  destruct (set_model_path MII_MODEL_PATH_DEFAULT (Some dir)
              (with_deploy_rank kwargs (Some r))) as [v4|] eqn:H4; cbn [mbind result_bind]; [|congruence].
  destruct (set_model_path_aml_ok _ _ _ Hne Habs H4) as (p & -> & Hp).
  destruct (validate_model_and_task check_if_task_and_model_is_valid
              check_if_task_and_model_is_supported
              (with_model_path (with_deploy_rank kwargs (Some r)) p)) as [v5|] eqn:H5;
    cbn [mbind result_bind]; [|congruence].
  apply validate_model_and_task_ok in H5 as ->.
  destruct (meta_tensor_or_sys_mem _) as [v6|] eqn:H6; cbn [mbind result_bind]; [|congruence].
  assert (v6 = with_skip_model_check
                 (with_model_path (with_deploy_rank kwargs (Some r)) p) true) as ->.
  { unfold meta_tensor_or_sys_mem in H6. destruct (_ && _); congruence. }
  destruct (zero_dtype_valid _) as [v7|] eqn:H7; cbn [mbind result_bind]; [|congruence].
  assert (v7 = with_skip_model_check
                 (with_model_path (with_deploy_rank kwargs (Some r)) p) true) as ->.
  { unfold zero_dtype_valid, assert in H7. cbn in H7.
    destruct (enable_zero kwargs); cbn in H7; [|congruence].
    destruct (fp16_enabled _) as [[|]|]; cbn in H7; [| |congruence];
      destruct (dtype_eqb _ _); cbn in H7; congruence. }
  intros Hlast.
  assert (cfg = with_skip_model_check
                  (with_model_path (with_deploy_rank kwargs (Some r)) p) true) as ->.
  { unfold deepspeed_or_zero, assert in Hlast. destruct (negb _); cbn in Hlast; congruence. }
  split; [exact Hp|].
  unfold DeploymentConfig_init.
  change (checkpoint_dict (with_skip_model_check _ _)) with (checkpoint_dict kwargs).
  rewrite Hcd. cbn [mbind result_bind].
  assert (Hz : zero_or_meta (with_skip_model_check
                 (with_model_path (with_deploy_rank kwargs (Some r)) p) true)
               = Ok (with_skip_model_check
                 (with_model_path (with_deploy_rank kwargs (Some r)) p) true)).
  { revert H1. unfold zero_or_meta, assert. cbn.
    destruct (enable_zero kwargs); cbn; [|reflexivity].
    destruct (negb (meta_tensor kwargs)); cbn; congruence. }
  rewrite Hz. cbn [mbind result_bind].
  assert (Hb : bloom_model_valid (with_skip_model_check
                 (with_model_path (with_deploy_rank kwargs (Some r)) p) true)
               = Ok (with_skip_model_check
                 (with_model_path (with_deploy_rank kwargs (Some r)) p) true)).
  { revert H2. unfold bloom_model_valid, assert. cbn.
    destruct (contains _ _); cbn; [|reflexivity].
    destruct (_ || _); cbn; [|congruence].
    destruct (negb _); cbn; congruence. }
  rewrite Hb. cbn [mbind result_bind].
  assert (Hd : deploy_rank_valid (with_skip_model_check
                 (with_model_path (with_deploy_rank kwargs (Some r)) p) true)
               = Ok (with_skip_model_check
                 (with_model_path (with_deploy_rank kwargs (Some r)) p) true)).
  { unfold deploy_rank_valid, assert. cbn. rewrite Hlen, Z.eqb_refl. reflexivity. }
  rewrite Hd. cbn [mbind result_bind].
  unfold set_model_path, assert. cbn.
  destruct p as [|c p]; [discriminate|]. cbn [String.eqb].
  destruct (String.eqb_spec dir "") as [|_]; [congruence|].
  rewrite Habs. cbn. cbn in Hp. rewrite Hp. reflexivity.
Qed.

End RoundTrip.

(** Without [AZUREML_MODEL_DIR] the validators accept what they produced and
    leave it as it is: building a configuration again from its own fields
    gives the same configuration. *)
Lemma init_again_without_aml_dir
    (MII_MODEL_PATH_DEFAULT : string)
    (check_valid check_supported : TaskType -> string -> result unit)
    (kwargs cfg : DeploymentConfig) :
  DeploymentConfig_init MII_MODEL_PATH_DEFAULT None check_valid check_supported kwargs = Ok cfg ->
  DeploymentConfig_init MII_MODEL_PATH_DEFAULT None check_valid check_supported cfg = Ok cfg.
Proof.
  unfold DeploymentConfig_init at 1.
  destruct (checkpoint_dict_valid (checkpoint_dict kwargs)) as [cd|] eqn:Hcd;
    cbn [mbind result_bind]; [|congruence].
  destruct (zero_or_meta kwargs) as [v1|] eqn:H1; cbn [mbind result_bind]; [|congruence].
  pose proof H1 as H1'. apply zero_or_meta_ok in H1' as ->.
  destruct (bloom_model_valid kwargs) as [v2|] eqn:H2; cbn [mbind result_bind]; [|congruence].
  pose proof H2 as H2'. apply bloom_model_valid_ok in H2' as ->.
  destruct (deploy_rank_valid kwargs) as [v3|] eqn:H3; cbn [mbind result_bind]; [|congruence].
  destruct (deploy_rank_valid_ok _ _ H3) as (r & -> & Hlen).
  unfold set_model_path at 1. cbn [mbind result_bind].
  set (p := if String.eqb (model_path (with_deploy_rank kwargs (Some r))) ""
            then MII_MODEL_PATH_DEFAULT
            else model_path (with_deploy_rank kwargs (Some r))).
  destruct (validate_model_and_task check_valid check_supported
              (with_model_path (with_deploy_rank kwargs (Some r)) p)) as [v5|] eqn:H5;
    cbn [mbind result_bind]; [|congruence].
  apply validate_model_and_task_ok in H5 as ->.
  set (c := with_skip_model_check (with_model_path (with_deploy_rank kwargs (Some r)) p) true).
  destruct (meta_tensor_or_sys_mem c) as [v6|] eqn:H6; cbn [mbind result_bind]; [|congruence].
  assert (v6 = c) as ->.
  { unfold meta_tensor_or_sys_mem in H6. destruct (_ && _); congruence. }
  destruct (zero_dtype_valid c) as [v7|] eqn:H7; cbn [mbind result_bind]; [|congruence].
  assert (v7 = c) as ->.
  { unfold zero_dtype_valid, assert in H7.
    destruct (enable_zero c); cbn [mbind result_bind] in H7; [|congruence].
    destruct (fp16_enabled _) as [[|]|]; cbn [mbind result_bind] in H7; [| |congruence];
      destruct (dtype_eqb _ _); cbn [mbind result_bind] in H7; congruence. }
  intros Hlast.
  assert (cfg = c) as ->.
  { unfold deepspeed_or_zero, assert in Hlast.
    destruct (negb _); cbn [mbind result_bind] in Hlast; congruence. }
  unfold DeploymentConfig_init.
  change (checkpoint_dict c) with (checkpoint_dict kwargs).
  rewrite Hcd. cbn [mbind result_bind].
  assert (Hz : zero_or_meta c = Ok c).
  { revert H1. unfold zero_or_meta, assert. cbn.
    destruct (enable_zero kwargs); cbn; [|reflexivity].
    destruct (negb (meta_tensor kwargs)); cbn; congruence. }
  rewrite Hz. cbn [mbind result_bind].
  assert (Hb : bloom_model_valid c = Ok c).
  { revert H2. unfold bloom_model_valid, assert. cbn.
    destruct (contains _ _); cbn; [|reflexivity].
    destruct (_ || _); cbn; [|congruence].
    destruct (negb _); cbn; congruence. }
  rewrite Hb. cbn [mbind result_bind].
  assert (Hd : deploy_rank_valid c = Ok c).
  { unfold deploy_rank_valid, assert. cbn. rewrite Hlen, Z.eqb_refl. reflexivity. }
  rewrite Hd. cbn [mbind result_bind].
  assert (Hs : set_model_path MII_MODEL_PATH_DEFAULT None c = Ok c).
  { unfold set_model_path. cbn [mbind result_bind].
    change (model_path c) with p. f_equal.
    assert (Hp : (if String.eqb p "" then MII_MODEL_PATH_DEFAULT else p) = p).
    { destruct (String.eqb_spec p "") as [Hp|]; [|reflexivity].
      rewrite Hp. unfold p in Hp. cbn [model_path with_deploy_rank] in Hp.
      destruct (String.eqb_spec (model_path kwargs) ""); congruence. }
    rewrite Hp. reflexivity. }
  rewrite Hs. cbn [mbind result_bind].
  assert (Hv : validate_model_and_task check_valid check_supported c = Ok c).
  { unfold validate_model_and_task. reflexivity. }
  rewrite Hv. cbn [mbind result_bind].
  rewrite H6. cbn [mbind result_bind]. rewrite H7. cbn [mbind result_bind]. exact Hlast.
Qed.

(** C9, at the input where it fails.  On a machine where [AZUREML_MODEL_DIR]
    is set (to an absolute directory), every configuration that was built
    has an absolute [model_path]; when it is serialized and the launched
    server, with the same environment, decodes the text back into the very
    same fields and builds the configuration from them, [set_model_path]
    rejects the absolute path: nothing is reconstructed. *)
Theorem shipped_config_rejected_under_aml_dir
    (MII_MODEL_PATH_DEFAULT dir : string)
    (check_valid check_supported : TaskType -> string -> result unit)
    (json : DeploymentConfig -> string) (json_loads : string -> result DeploymentConfig)
    (urlsafe_b64encode : string -> string) (urlsafe_b64decode : string -> result string)
    (kwargs cfg : DeploymentConfig) :
  urlsafe_b64decode (urlsafe_b64encode (json cfg)) = Ok (json cfg) ->
  json_loads (json cfg) = Ok cfg ->
  dir <> ""%string -> isabs dir = true ->
  DeploymentConfig_init MII_MODEL_PATH_DEFAULT (Some dir) check_valid check_supported kwargs
  = Ok cfg ->
  b64_encoded_config MII_MODEL_PATH_DEFAULT (Some dir) check_valid check_supported
                     json_loads urlsafe_b64decode
                     (serialize_config json urlsafe_b64encode cfg)
  = Raise (ValidationError ("model_path=" ++ model_path cfg ++
                            " must be relative to append w/ AML path.")).
Proof.
  intros Hb64 Hjson Hne Habs Hinit.
  unfold b64_encoded_config, serialize_config.
  rewrite Hb64. cbn [mbind result_bind]. rewrite Hjson. cbn [mbind result_bind].
  exact (proj2 (init_again_fails_under_aml_dir MII_MODEL_PATH_DEFAULT check_valid
                  check_supported dir kwargs cfg Hne Habs Hinit)).
Qed.

Lemma shipped_config_rejected_under_aml_dir_witness :
  DeploymentConfig_init "/tmp/mii_models" (Some "/aml"%string)
    (fun _ _ => Ok tt) (fun _ _ => Ok tt) aml_kwargs = Ok aml_config
  /\ b64_encoded_config "/tmp/mii_models" (Some "/aml"%string)
       (fun _ _ => Ok tt) (fun _ _ => Ok tt)
       (fun _ => Ok aml_config) (fun s => Ok s)
       (serialize_config (fun _ => "{...}"%string) (fun s => s) aml_config)
     = Raise (ValidationError ("model_path=" ++ model_path aml_config ++
                               " must be relative to append w/ AML path.")).
Proof.
  split; [reflexivity|].
  apply (shipped_config_rejected_under_aml_dir "/tmp/mii_models" "/aml"
           (fun _ _ => Ok tt) (fun _ _ => Ok tt)
           (fun _ => "{...}"%string) (fun _ => Ok aml_config) (fun s => s) (fun s => Ok s)
           aml_kwargs aml_config).
  - reflexivity.
  - reflexivity.
  - discriminate.
  - reflexivity.
  - reflexivity.
Defined.

(** * Further properties of the modelled code *)

(** ** The planner *)

(** Every window of the catalog sits on a host of the catalog, has
    [tp] consecutive slots and stays within the slots of its host. *)
Lemma in_host_windows tp (pool : resource_pool) (a : assignment) :
  0 < tp ->
  In a (flat_map (host_windows tp) pool) ->
  exists slots k,
    In (fst a, slots) pool /\ 0 <= k /\ (k + 1) * tp <= slots /\
    snd a = seqZ (k * tp) tp.
Proof.
  intros Htp Hin. apply in_flat_map in Hin as ([host slots] & Hpool & Hw).
  unfold host_windows in Hw. cbn [fst snd] in Hw.
  apply in_map_iff in Hw as (k & <- & Hk).
  apply list_elem_of_In, elem_of_seqZ in Hk.
  assert (tp * (slots / tp) <= slots) by (apply Z.mul_div_le; lia).
  exists slots, k. cbn [fst snd window]. split; [exact Hpool|].
  split; [lia|]. split; [nia|].
  unfold range. f_equal. lia.
Qed.

Lemma In_take {A} (n : nat) (l : list A) (x : A) : In x (take n l) -> In x l.
Proof.
  intros Hin. apply list_elem_of_In. apply list_elem_of_In in Hin.
  eapply subseteq_take, Hin.
Qed.


(** A placement returned in automatic mode has as many assignments as
    replicas were asked for. *)
Lemma auto_plan_length (pool : resource_pool) (tp rn : Z) (plan : list assignment) :
  0 < tp -> 0 <= rn ->
  _allocate_processes pool tp rn None = Some (Ok plan) ->
  Z.of_nat (length plan) = rn.
Proof.
  intros Htp Hrn Hplan.
  assert (Hne : pool <> []).
  { intros ->. cbn in Hplan. discriminate. }
  rewrite (allocate_auto tp rn Htp pool Hne) in Hplan. cbn zeta in Hplan.
  destruct (Z.ltb_spec (Z.of_nat (length (spec_plan pool tp rn))) rn) as [|Hlen];
    [discriminate|].
  injection Hplan as <-. unfold spec_plan in *. rewrite length_take in *. lia.
Qed.

(** X1. In automatic mode, for a positive tensor-parallel degree and a
    replica count that is not negative, a placement that is returned has
    exactly [replica_num] assignments; each assigns exactly [tensor_parallel]
    GPU indices, all of them slots that its host has in the catalog. *)
Theorem plan_has_requested_shape (pool : resource_pool) (tp rn : Z) (plan : list assignment) :
  0 < tp -> 0 <= rn ->
  _allocate_processes pool tp rn None = Some (Ok plan) ->
  Z.of_nat (length plan) = rn /\
  forall host gpus, In (host, gpus) plan ->
    Z.of_nat (length gpus) = tp /\
    exists slots, In (host, slots) pool /\
                  forall g, In g gpus -> 0 <= g < slots.
Proof.
  intros Htp Hrn Hplan.
  assert (Hne : pool <> []).
  { intros ->. cbn in Hplan. discriminate. }
  rewrite (allocate_auto tp rn Htp pool Hne) in Hplan. cbn zeta in Hplan.
  destruct (Z.ltb_spec (Z.of_nat (length (spec_plan pool tp rn))) rn) as [|Hlen];
    [discriminate|].
  injection Hplan as <-. split.
  - unfold spec_plan in *. rewrite length_take in *. lia.
  - intros host gpus Hin. unfold spec_plan in Hin. apply In_take in Hin.
    destruct (in_host_windows tp pool (host, gpus) Htp Hin)
      as (slots & k & Hpool & Hk & Hfit & Hgpus).
    cbn [fst snd] in *. subst gpus. split.
    + rewrite length_seqZ. lia.
    + exists slots. split; [exact Hpool|].
      intros g Hg. apply list_elem_of_In, elem_of_seqZ in Hg. nia.
Qed.

Lemma plan_has_requested_shape_witness :
  Z.of_nat (length [("h1"%string, [0; 1]); ("h1"%string, [2; 3]); ("h2"%string, [0; 1])]) = 3 /\
  forall host gpus,
    In (host, gpus) [("h1"%string, [0; 1]); ("h1"%string, [2; 3]); ("h2"%string, [0; 1])] ->
    Z.of_nat (length gpus) = 2 /\
    exists slots, In (host, slots) [("h1"%string, 4); ("h2"%string, 2)] /\
                  forall g, In g gpus -> 0 <= g < slots.
Proof.
  apply (plan_has_requested_shape [("h1"%string, 4); ("h2"%string, 2)] 2 3).
  - lia.
  - lia.
  - vm_compute. reflexivity.
Defined.

(** Two windows that share a slot on the same host are the same window. *)
Lemma windows_overlap_same tp k1 k2 g :
  0 < tp ->
  In g (seqZ (k1 * tp) tp) -> In g (seqZ (k2 * tp) tp) -> k1 = k2.
Proof.
  intros Htp H1 H2.
  apply list_elem_of_In, elem_of_seqZ in H1.
  apply list_elem_of_In, elem_of_seqZ in H2. nia.
Qed.

(** The windows of a catalog whose host names are distinct are distinct. *)
Lemma host_windows_NoDup tp host slots :
  0 < tp -> NoDup (host_windows tp (host, slots)).
Proof.
  intros Htp. unfold host_windows. cbn [fst snd].
  apply NoDup_fmap_2_strong; [|apply NoDup_seqZ].
  intros k1 k2 Hk1 Hk2 Heq. unfold window, range in Heq.
  injection Heq as Heq.
  apply elem_of_seqZ in Hk1.
  assert (Hin : In (k1 * tp) (seqZ (k1 * tp) ((k1 + 1) * tp - k1 * tp))).
  { apply list_elem_of_In, elem_of_seqZ. lia. }
  rewrite Heq in Hin. apply list_elem_of_In, elem_of_seqZ in Hin.
  apply elem_of_seqZ in Hk2. nia.
Qed.

Lemma catalog_windows_NoDup tp (pool : resource_pool) :
  0 < tp -> NoDup (map fst pool) -> NoDup (flat_map (host_windows tp) pool).
Proof.
  intros Htp. induction pool as [|[host slots] pool IH]; intros Hnd; cbn [flat_map].
  - constructor.
  - cbn [map fst] in Hnd. inversion Hnd as [|? ? Hfresh Hnd']; subst.
    apply list.NoDup_app. split; [now apply host_windows_NoDup|]. split; [|now apply IH].
    
    intros a Ha Ha'. apply list_elem_of_In in Ha, Ha'.
    unfold host_windows in Ha. cbn [fst snd] in Ha.
    apply in_map_iff in Ha as (k & <- & _).
    destruct (in_host_windows tp pool _ Htp Ha') as (s & _ & Hin & _).
    cbn [fst window] in Hin. apply Hfresh.
    apply list_elem_of_In. apply in_map_iff. exists (host, s). auto.
Qed.

(** X2. In automatic mode, for a positive tensor-parallel degree and a
    catalog whose host names are distinct, two different assignments of a
    returned placement never share a slot of the same host. *)
Theorem plan_slots_disjoint (pool : resource_pool) (tp rn : Z) (plan : list assignment)
    (i j : nat) (host : string) (gpus_i gpus_j : list Z) (g : Z) :
  0 < tp ->
  NoDup (map fst pool) ->
  _allocate_processes pool tp rn None = Some (Ok plan) ->
  plan !! i = Some (host, gpus_i) ->
  plan !! j = Some (host, gpus_j) ->
  In g gpus_i -> In g gpus_j ->
  i = j.
Proof.
  intros Htp Hnd Hplan Hi Hj Hgi Hgj.
  assert (Hne : pool <> []).
  { intros ->. cbn in Hplan. discriminate. }
  rewrite (allocate_auto tp rn Htp pool Hne) in Hplan. cbn zeta in Hplan.
  destruct (_ <? rn); [discriminate|]. injection Hplan as <-.
  assert (Hplan_nd : NoDup (spec_plan pool tp rn)).
  { unfold spec_plan.
    apply (sublist_NoDup _ (flat_map (host_windows tp) pool));
      [now apply catalog_windows_NoDup | apply sublist_take]. }
  assert (Hwin : forall n gpus, spec_plan pool tp rn !! n = Some (host, gpus) ->
                                exists k, gpus = seqZ (k * tp) tp).
  { intros n gpus Hn. apply list_elem_of_lookup_2, list_elem_of_In in Hn.
    unfold spec_plan in Hn. apply In_take in Hn.
    destruct (in_host_windows tp pool _ Htp Hn) as (s & k & _ & _ & _ & Hk). eauto. }
  destruct (Hwin i gpus_i Hi) as (ki & ->).
  destruct (Hwin j gpus_j Hj) as (kj & ->).
  assert (ki = kj) as -> by (eapply windows_overlap_same; eauto).
  eapply NoDup_lookup; eauto.
Qed.

Lemma plan_slots_disjoint_witness :
  _allocate_processes [("h1"%string, 4); ("h2"%string, 2)] 2 3 None
  = Some (Ok [("h1"%string, [0; 1]); ("h1"%string, [2; 3]); ("h2"%string, [0; 1])])
  /\ In 2 [2; 3] /\ 1%nat = 1%nat.
Proof.
  split; [vm_compute; reflexivity|]. split; [cbn; auto|].
  apply (plan_slots_disjoint [("h1"%string, 4); ("h2"%string, 2)] 2 3
           [("h1"%string, [0; 1]); ("h1"%string, [2; 3]); ("h2"%string, [0; 1])]
           1 1 "h1" [2; 3] [2; 3] 2).
  - lia.
  - cbn. repeat constructor; set_solver.
  - vm_compute. reflexivity.
  - reflexivity.
  - reflexivity.
  - cbn. auto.
  - cbn. auto.
Defined.

(** A pinned host the catalog can serve. *)
Lemma check_index_map_accepts pool tp (m : gpu_index_map) :
  check_index_map pool tp m = Ok tt <->
  Forall (fun hk => exists slots, pool_get pool (fst hk) = Some slots /\ tp <= slots) m.
Proof.
  induction m as [|[h idx] m IH]; cbn [check_index_map].
  - split; [constructor | reflexivity].
  - destruct (pool_get pool h) as [slots|] eqn:Hget.
    + destruct (Z.leb_spec tp slots) as [Hok|Hbad].
      * rewrite IH. split.
        -- intros Hm. constructor; [cbn; eauto | exact Hm].
        -- intros Hm. now inversion Hm.
      * split; [discriminate|]. intros Hm. inversion Hm as [|? ? (s & Hs & Hle) _]; subst.
        cbn [fst] in Hs. rewrite Hget in Hs. injection Hs as ->. lia.
    + split; [discriminate|]. intros Hm. inversion Hm as [|? ? (s & Hs & _) _]; subst.
      cbn [fst] in Hs. congruence.
Qed.

Lemma index_get_In (m : gpu_index_map) host idx :
  NoDup (map fst m) -> In (host, idx) m -> index_get m host = idx.
Proof.
  induction m as [|[h i] m IH]; intros Hnd Hin; [destruct Hin|].
  cbn [map fst] in Hnd. inversion Hnd as [|? ? Hfresh Hnd']; subst.
  cbn [index_get]. destruct (String.eqb_spec h host) as [->|Hne].
  - destruct Hin as [[= ->]|Hin]; [reflexivity|].
    exfalso. apply Hfresh, list_elem_of_In, in_map_iff. exists (host, idx). auto.
  - destruct Hin as [[= -> _]|Hin]; [congruence|]. now apply IH.
Qed.

Lemma pin_hosts_items (m : gpu_index_map) :
  NoDup (map fst m) -> pin_hosts m m = m.
Proof.
  intros Hnd. unfold pin_hosts.
  assert (H : forall keys, (forall hk, In hk keys -> In hk m) ->
                           map (fun hk => (fst hk, index_get m (fst hk))) keys = keys).
  { induction keys as [|[h idx] keys IH]; intros Hsub; [reflexivity|].
    cbn [map fst]. rewrite (index_get_In m h idx Hnd) by (apply Hsub; now left).
    f_equal. apply IH. intros hk Hhk. apply Hsub. now right. }
  apply H. auto.
Qed.


(** A pinned placement that is accepted is returned entry by entry. *)
Lemma pinned_plan_items (pool : resource_pool) (tp rn : Z) (m : gpu_index_map)
    (plan : list assignment) :
  NoDup (map fst m) ->
  _allocate_processes pool tp rn (Some m) = Some (Ok plan) -> plan = m.
Proof.
  intros Hnd. unfold _allocate_processes.
  destruct (Nat.eqb (length pool) 0); [discriminate|].
  destruct (check_index_map pool tp m) as [[]|e]; [|discriminate].
  intros [= <-]. now apply pin_hosts_items.
Qed.

(** X3. With a pinned placement ([GPU_index_map]) whose host names are
    distinct and a catalog that is not empty, planning succeeds exactly when
    every pinned host is in the catalog with at least [tensor_parallel]
    slots, and then returns the pinned entries themselves, in their order:
    neither [replica_num] nor the pinned GPU indices are looked at. *)
Theorem pinned_placement_returned_as_given
    (pool : resource_pool) (tp : Z) (m : gpu_index_map) :
  pool <> [] ->
  NoDup (map fst m) ->
  (Forall (fun hk => exists slots, pool_get pool (fst hk) = Some slots /\ tp <= slots) m ->
   forall rn, _allocate_processes pool tp rn (Some m) = Some (Ok m))
  /\ (forall rn plan,
         _allocate_processes pool tp rn (Some m) = Some (Ok plan) ->
         plan = m /\
         Forall (fun hk => exists slots, pool_get pool (fst hk) = Some slots /\ tp <= slots) m).
Proof.
  intros Hne Hnd. destruct pool as [|p pool']; [congruence|]. split.
  - intros Hok rn. apply check_index_map_accepts in Hok.
    unfold _allocate_processes. cbn [length Nat.eqb]. rewrite Hok.
    now rewrite pin_hosts_items.
  - intros rn plan. unfold _allocate_processes. cbn [length Nat.eqb].
    destruct (check_index_map (p :: pool') tp m) as [[]|e] eqn:Hchk; [|discriminate].
    intros [= <-]. split; [now apply pin_hosts_items|].
    now apply check_index_map_accepts.
Qed.

Lemma pinned_placement_returned_as_given_witness :
  _allocate_processes [("master"%string, 2)] 1 7
                      (Some [("master"%string, [0; 1; 5])])
  = Some (Ok [("master"%string, [0; 1; 5])]).
Proof.
  refine (proj1 (pinned_placement_returned_as_given [("master"%string, 2)] 1
                   [("master"%string, [0; 1; 5])] _ _) _ 7).
  - discriminate.
  - cbn. repeat constructor. set_solver.
  - repeat constructor. cbn. exists 2. split; [reflexivity | lia].
Defined.

(** Once enough replicas are allocated, the hosts that follow add nothing. *)
Lemma scan_hosts_saturated (pool : resource_pool) tp rn st :
  rn <= allocated_num st -> scan_hosts pool tp rn st = Some (Ok st).
Proof.
  intros Hsat. induction pool as [|[host slots] pool IH]; [reflexivity|].
  cbn [scan_hosts]. unfold carve_fuel. cbn [carve_while].
  destruct (tp <=? slots); [|exact IH].
  destruct (Z.leb_spec rn (allocated_num st)); [exact IH | lia].
Qed.

(** A degree that is not positive: the loop of a host never runs out of
    slots and hands out empty windows until the replicas are complete. *)
Lemma carve_while_degenerate fuel host slots tp rn available st :
  tp <= 0 -> tp <= slots -> slots <= available ->
  (Z.to_nat (rn - allocated_num st) < fuel)%nat ->
  carve_while fuel host slots tp rn available st
  = Some (Ok (Scan (Z.max rn (allocated_num st))
                   (replica_pool st ++
                    replicate (Z.to_nat (rn - allocated_num st)) (host, [])))).
Proof.
  intros Htp Hslots. revert available st.
  induction fuel as [|fuel IH]; intros available st Havail Hfuel; [lia|].
  cbn [carve_while]. destruct st as [alloc rp]. cbn [allocated_num replica_pool] in *.
  destruct (Z.leb_spec tp available); [|lia].
  destruct (Z.leb_spec rn alloc) as [Hdone|Hmore].
  - replace (Z.to_nat (rn - alloc)) with O by lia. cbn [replicate].
    rewrite app_nil_r. do 3 f_equal. lia.
  - destruct (Z.ltb_spec slots tp); [lia|].
    rewrite IH by (cbn [allocated_num]; lia). cbn [allocated_num replica_pool].
    replace (Z.to_nat (rn - alloc)) with (S (Z.to_nat (rn - (alloc + 1)))) by lia.
    cbn [replicate]. rewrite <- app_assoc. cbn [app].
    unfold range. rewrite seqZ_nil by lia. do 3 f_equal. lia.
Qed.

(** X4. A tensor-parallel degree of zero or below is not rejected by the
    planner: in automatic mode, when the first host of the catalog has at
    least that many slots, all [replica_num] replicas are placed on this
    first host, each without any GPU index. *)
Theorem nonpositive_degree_places_empty_replicas
    (host : string) (slots : Z) (rest : resource_pool) (tp rn : Z) :
  tp <= 0 -> tp <= slots -> 0 <= rn ->
  _allocate_processes ((host, slots) :: rest) tp rn None
  = Some (Ok (replicate (Z.to_nat rn) (host, []))).
Proof.
  intros Htp Hslots Hrn. unfold _allocate_processes. cbn [length Nat.eqb scan_hosts].
  rewrite (carve_while_degenerate _ host slots tp rn slots (Scan 0 []) Htp Hslots)
    by (unfold carve_fuel; cbn [allocated_num]; lia).
  cbn [allocated_num replica_pool app]. rewrite Z.sub_0_r.
  rewrite scan_hosts_saturated by (cbn [allocated_num]; lia).
  cbn [allocated_num replica_pool].
  destruct (Z.ltb_spec (Z.max rn 0) rn); [lia | reflexivity].
Qed.

Lemma nonpositive_degree_places_empty_replicas_witness :
  _allocate_processes [("h1"%string, 4); ("h2"%string, 2)] 0 3 None
  = Some (Ok (replicate (Z.to_nat 3) ("h1"%string, []))).
Proof.
  apply (nonpositive_degree_places_empty_replicas "h1" 4 [("h2"%string, 2)] 0 3); lia.
Defined.

(** ** The port allocator *)

Lemma reserved_on_insert (pm : gmap string (gset Z)) (host host' : string) (s : gset Z) :
  reserved_on (<[host := s]> pm) host'
  = if decide (host = host') then s else reserved_on pm host'.
Proof.
  unfold reserved_on. destruct (decide (host = host')) as [->|Hne].
  - now rewrite lookup_insert_eq.
  - now rewrite lookup_insert_ne.
Qed.

(** When nothing at or above the first candidate is reserved, no candidate
    is ever taken: the blocks follow one another from the base port. *)
Lemma replica_loop_fresh coord pn tp tdp (i : Z) (pool : list assignment)
    (pm : gmap string (gset Z)) (acc : list ReplicaConfig) :
  0 < tp ->
  (forall host p, p ∈ reserved_on pm host -> p < pn + i * tp + 1) ->
  exists rcs pm',
    replica_loop coord pn 1 tp tdp i pool pm acc = Ok (acc ++ rcs, pm') /\
    length rcs = length pool /\
    forall (k : nat) host idx,
      pool !! k = Some (host, idx) ->
      rcs !! k = Some (mkReplicaConfig host (seqZ (pn + (i + Z.of_nat k) * tp + 1) tp)
                         (coord tdp (pn + (i + Z.of_nat k + 1) * tp)) idx).
Proof.
  intros Htp. revert i pm acc.
  induction pool as [|[host idx] pool IH]; intros i pm acc Hbelow.
  - exists [], pm. cbn. rewrite app_nil_r. split; [reflexivity|]. split; [reflexivity|].
    intros k h x Hk. discriminate.
  - cbn [replica_loop].
    destruct (reserve_replica_spec coord pn tp tdp i host idx pm) as (start & Hstart & ->).
    assert (start = pn + i * tp + 1) as ->.
    { destruct Hstart as [[_ ->]|[Hin _]]; [reflexivity|].
      apply Hbelow in Hin. lia. }
    cbn [mbind result_bind]. rewrite last_seqZ by lia.
    edestruct (IH (i + 1)) as (rcs & pm' & -> & Hlen & Hnth).
    { intros h p. rewrite reserved_on_insert. destruct (decide (host = h)) as [<-|_].
      - rewrite elem_of_union, elem_of_list_to_set, elem_of_seqZ.
        intros [Hold|Hnew]; [apply Hbelow in Hold|]; lia.
      - intros Hp. apply Hbelow in Hp. lia. }
    eexists (_ :: rcs), pm'. rewrite <- app_assoc. cbn [app]. split; [reflexivity|].
    split; [cbn; now rewrite Hlen|].
    intros [|k] h x Hk.
    + injection Hk as <- <-. cbn [lookup list_lookup]. do 3 f_equal; lia.
    + pose proof (Hnth k h x Hk) as Hr. refine (eq_trans Hr _). do 3 f_equal; lia.
Qed.

(** X5. For a positive tensor-parallel degree and a port map that reserves
    nothing above the base port (an empty one, for instance), the loop over
    a placement gives replica [k] the ports [port_number + k*tp + 1] to
    [port_number + (k+1)*tp]; so the blocks of different replicas are
    disjoint, on one host and across hosts. *)
Theorem fresh_port_map_gives_consecutive_blocks
    (coord : Z -> Z -> Z) (pn tp tdp : Z) (pool : list assignment)
    (pm : gmap string (gset Z)) :
  0 < tp ->
  (forall host p, p ∈ reserved_on pm host -> p <= pn) ->
  exists rcs pm',
    replica_loop coord pn 1 tp tdp 0 pool pm [] = Ok (rcs, pm') /\
    (forall (k : nat) host idx,
        pool !! k = Some (host, idx) ->
        exists rc, rcs !! k = Some rc /\ hostname rc = host /\ gpu_indices rc = idx /\
                   tensor_parallel_ports rc = seqZ (pn + Z.of_nat k * tp + 1) tp) /\
    (forall (j k : nat) rcj rck p,
        rcs !! j = Some rcj -> rcs !! k = Some rck ->
        In p (tensor_parallel_ports rcj) -> In p (tensor_parallel_ports rck) -> j = k).
Proof.
  intros Htp Hbelow.
  destruct (replica_loop_fresh coord pn tp tdp 0 pool pm [] Htp) as (rcs & pm' & Hloop & Hlen & Hnth).
  { intros h p Hp. apply Hbelow in Hp. lia. }
  exists rcs, pm'. split; [exact Hloop|]. split.
  - intros k host idx Hk. rewrite (Hnth k host idx Hk). eexists. split; [reflexivity|].
    cbn [hostname gpu_indices tensor_parallel_ports].
    split; [reflexivity|]. split; [reflexivity|]. f_equal; lia.
  - assert (Hports : forall (k : nat) rc, rcs !! k = Some rc ->
              tensor_parallel_ports rc = seqZ (pn + Z.of_nat k * tp + 1) tp).
    { intros k rc Hrc. assert (Hlt : (k < length pool)%nat).
      { rewrite <- Hlen. eapply lookup_lt_Some, Hrc. }
      destruct (lookup_lt_is_Some_2 pool k Hlt) as [[h x] Hk].
      rewrite (Hnth k h x Hk) in Hrc. injection Hrc as <-. cbn [tensor_parallel_ports]. f_equal; lia. }
    intros j k rcj rck p Hj Hk Hpj Hpk.
    rewrite (Hports j rcj Hj) in Hpj. rewrite (Hports k rck Hk) in Hpk.
    apply list_elem_of_In, elem_of_seqZ in Hpj.
    apply list_elem_of_In, elem_of_seqZ in Hpk. nia.
Qed.

Lemma fresh_port_map_gives_consecutive_blocks_witness :
  exists rcs pm',
    replica_loop coord_config 50050 1 2 29500 0
                 [("h1"%string, [0; 1]); ("h2"%string, [0; 1]); ("h1"%string, [2; 3])] ∅ []
    = Ok (rcs, pm') /\
    exists rc, rcs !! 2%nat = Some rc /\ hostname rc = "h1"%string /\
               gpu_indices rc = [2; 3] /\
               tensor_parallel_ports rc = seqZ (50050 + Z.of_nat 2 * 2 + 1) 2.
Proof.
  destruct (fresh_port_map_gives_consecutive_blocks coord_config 50050 2 29500
              [("h1"%string, [0; 1]); ("h2"%string, [0; 1]); ("h1"%string, [2; 3])] ∅)
    as (rcs & pm' & Hloop & Hnth & _).
  - lia.
  - intros host p Hp. unfold reserved_on in Hp. rewrite lookup_empty in Hp. set_solver.
  - exists rcs, pm'. split; [exact Hloop|].
    exact (Hnth 2%nat "h1"%string [2; 3] eq_refl).
Defined.

(** The loop only adds to the port map: what was reserved stays reserved,
    the ports handed out are reserved for the host of their replica, and
    hosts without a replica are not touched. *)
Lemma replica_loop_records coord pn tp tdp (i : Z) (pool : list assignment)
    (pm pm' : gmap string (gset Z)) (acc rcs : list ReplicaConfig) :
  replica_loop coord pn 1 tp tdp i pool pm acc = Ok (rcs, pm') ->
  (forall host p, p ∈ reserved_on pm host -> p ∈ reserved_on pm' host) /\
  (forall rc, In rc rcs ->
      In rc acc \/
      (In (hostname rc) (map fst pool) /\
       forall p, In p (tensor_parallel_ports rc) -> p ∈ reserved_on pm' (hostname rc))) /\
  (forall host, ~ In host (map fst pool) -> pm' !! host = pm !! host).
Proof.
  revert i pm acc. induction pool as [|[host idx] pool IH]; intros i pm acc Hloop.
  - cbn in Hloop. injection Hloop as <- <-. repeat split; auto.
  - cbn [replica_loop] in Hloop.
    destruct (reserve_replica_spec coord pn tp tdp i host idx pm) as (start & _ & Hres).
    rewrite Hres in Hloop. cbn [mbind result_bind] in Hloop.
    apply IH in Hloop as (Hmono & Hrec & Hother).
    assert (Hstep : forall h p, p ∈ reserved_on pm h ->
              p ∈ reserved_on (<[host := reserved_on pm host ∪ list_to_set (seqZ start tp)]> pm) h).
    { intros h p Hp. rewrite reserved_on_insert. destruct (decide (host = h)) as [<-|_].
      - apply elem_of_union. now left.
      - exact Hp. }
    split; [|split].
    + intros h p Hp. apply Hmono, Hstep, Hp.
    + intros rc Hrc. destruct (Hrec rc Hrc) as [Hacc|[Hhost Hports]].
      * apply in_app_or in Hacc as [Hacc|[<-|[]]]; [now left|].
        right. cbn [hostname tensor_parallel_ports map fst]. split; [now left|].
        intros p Hp. apply Hmono. rewrite reserved_on_insert.
        destruct (decide (host = host)); [|congruence].
        apply elem_of_union. right. apply elem_of_list_to_set, list_elem_of_In, Hp.
      * right. split; [now right | exact Hports].
    + intros h Hh. cbn [map fst] in Hh. rewrite Hother by (intros ?; apply Hh; now right).
      apply lookup_insert_ne. intros ->. apply Hh. now left.
Qed.

(** X6. The loop over a placement only ever adds to the port map: a port
    reserved for a host before is reserved for it afterwards, every shard
    port of every replica configuration it returns is then reserved for the
    host of that replica, and the entry of a host that gets no replica is
    left as it was. *)
Theorem port_map_records_every_block
    (coord : Z -> Z -> Z) (pn tp tdp : Z) (pool : list assignment)
    (pm pm' : gmap string (gset Z)) (rcs : list ReplicaConfig) :
  replica_loop coord pn 1 tp tdp 0 pool pm [] = Ok (rcs, pm') ->
  (forall host p, p ∈ reserved_on pm host -> p ∈ reserved_on pm' host) /\
  (forall rc p, In rc rcs -> In p (tensor_parallel_ports rc) ->
                p ∈ reserved_on pm' (hostname rc)) /\
  (forall host, ~ In host (map fst pool) -> pm' !! host = pm !! host).
Proof.
  intros Hloop. apply replica_loop_records in Hloop as (Hmono & Hrec & Hother).
  split; [exact Hmono|]. split; [|exact Hother].
  intros rc p Hrc Hp. destruct (Hrec rc Hrc) as [[]|[_ Hports]]. now apply Hports.
Qed.

Lemma port_map_records_every_block_witness :
  exists rcs pm',
    replica_loop coord_config 50050 1 2 29500 0 [("h"%string, [0; 1])]
                 {[ "h"%string := {[ 50051 ]} ]} [] = Ok (rcs, pm') /\
    50051 ∈ reserved_on pm' "h".
Proof.
  destruct (replica_loop_returns coord_config 50050 2 29500 0 [("h"%string, [0; 1])]
              {[ "h"%string := {[ 50051 ]} ]} []) as (rcs & pm' & Hloop & _).
  exists rcs, pm'. split; [exact Hloop|].
  apply (proj1 (port_map_records_every_block coord_config 50050 2 29500
                  [("h"%string, [0; 1])] {[ "h"%string := {[ 50051 ]} ]} pm' rcs Hloop)).
  vm_compute. reflexivity.
Defined.

(** [generate_replica_configs] keeps the deployments it has already been
    through at the head of its result. *)
Lemma generate_loop_keeps_done hostfile pn todo done pm dcs pm' :
  generate_loop hostfile pn todo done pm = Some (Ok (dcs, pm')) ->
  exists tail, dcs = done ++ tail.
Proof.
  revert done pm. induction todo as [|[name dc] rest IH]; intros done pm Hloop.
  - cbn in Hloop. injection Hloop as <- _. exists []. now rewrite app_nil_r.
  - cbn [generate_loop] in Hloop.
    destruct (negb (Nat.eqb (length (replica_configs dc)) 0)).
    + destruct (_ =? _); [|discriminate]. injection Hloop as <- _. eauto.
    + destruct (_allocate_processes _ _ _ _) as [[pool|e]|]; [|discriminate..].
      destruct (replica_loop _ _ _ _ _ _ _ _ _) as [[rcs pm1]|e]; [|discriminate].
      apply IH in Hloop as (tail & ->). rewrite <- app_assoc. eauto.
Qed.

(** The first deployment of a generated configuration carries one replica
    configuration per entry of its placement. *)
Lemma generate_first_deployment (values values' : MIIConfig) name dc rest :
  deployment_configs values = (name, dc) :: rest ->
  replica_configs dc = [] ->
  generate_replica_configs values = Some (Ok values') ->
  exists pool rcs tail,
    _allocate_processes (hostfile values) (tensor_parallel dc) (replica_num dc)
                        (GPU_index_map dc) = Some (Ok pool) /\
    length rcs = length pool /\
    values' = mkMIIConfig ((name, set_replica_plan dc (GPU_index_map dc) rcs) :: tail)
                          (Config.port_number values) (hostfile values) (port_map values').
Proof.
  intros Hdcs Hnone Hgen. unfold generate_replica_configs in Hgen. rewrite Hdcs in Hgen.
  cbn [generate_loop] in Hgen. rewrite Hnone in Hgen. cbn [length Nat.eqb negb] in Hgen.
  destruct (_allocate_processes _ _ _ _) as [[pool|e]|] eqn:Hpool; [|discriminate..].
  destruct (replica_loop_returns coord_config (Config.port_number values) (tensor_parallel dc)
              (torch_dist_port dc) 0 pool (port_map values) []) as (rcs & pm1 & Hloop & Hlen).
  rewrite Hloop in Hgen. cbn [app] in Hgen.
  destruct (generate_loop _ _ rest _ pm1) as [[[dcs pm']|e]|] eqn:Hrest; [|discriminate..].
  injection Hgen as <-.
  apply generate_loop_keeps_done in Hrest as (tail & ->).
  exists pool, rcs, tail. split; [reflexivity|]. split; [exact Hlen|]. reflexivity.
Qed.

(** X7. Validating a generated configuration again changes nothing, when
    its first deployment was planned automatically for a positive
    tensor-parallel degree and at least one replica: the validator finds the
    replica configurations in place, as many as replicas were asked for,
    and returns at once. *)
Theorem generated_config_validates_again (values values' : MIIConfig) name dc rest :
  deployment_configs values = (name, dc) :: rest ->
  replica_configs dc = [] ->
  GPU_index_map dc = None ->
  0 < tensor_parallel dc ->
  0 < replica_num dc ->
  generate_replica_configs values = Some (Ok values') ->
  generate_replica_configs values' = Some (Ok values').
Proof.
  intros Hdcs Hnone Hauto Htp Hrn Hgen.
  destruct (generate_first_deployment values values' name dc rest Hdcs Hnone Hgen)
    as (pool & rcs & tail & Hpool & Hlen & ->).
  rewrite Hauto in Hpool.
  pose proof (auto_plan_length (hostfile values) (tensor_parallel dc) (replica_num dc)
                pool Htp (Z.lt_le_incl _ _ Hrn) Hpool) as Hplan.
  unfold generate_replica_configs.
  cbn [deployment_configs hostfile Config.port_number port_map generate_loop].
  change (replica_configs (set_replica_plan dc (GPU_index_map dc) rcs)) with rcs.
  change (replica_num (set_replica_plan dc (GPU_index_map dc) rcs)) with (replica_num dc).
  assert (Hn : Z.of_nat (length rcs) = replica_num dc) by (rewrite Hlen; exact Hplan).
  destruct rcs as [|rc rcs]; [cbn in Hn; lia|].
  cbn [length Nat.eqb negb] in Hn |- *. rewrite Hn, Z.eqb_refl. reflexivity.
Qed.

Lemma generated_config_validates_again_witness :
  exists values',
    generate_replica_configs
      (mkMIIConfig [("m"%string, deployment_of "m" 2 2)] 50050 [("h"%string, 4)] ∅)
    = Some (Ok values') /\
    generate_replica_configs values' = Some (Ok values').
Proof.
  eexists. split; [vm_compute; reflexivity|].
  apply (generated_config_validates_again
           (mkMIIConfig [("m"%string, deployment_of "m" 2 2)] 50050 [("h"%string, 4)] ∅)
           _ "m" (deployment_of "m" 2 2) []).
  - reflexivity.
  - reflexivity.
  - reflexivity.
  - reflexivity.
  - reflexivity.
  - vm_compute. reflexivity.
Defined.

(** X8. A pinned placement is not checked against [replica_num].  Let the
    first deployment have no replica configurations yet and pin, through a
    [GPU_index_map] that is not empty and names distinct hosts, a number of
    hosts other than [replica_num].  Whenever [generate_replica_configs]
    succeeds on such a configuration, its result gives that deployment one
    replica per pinned host, and validating the result again fails the
    assertion [len(replica_configs) == replica_num]. *)
Theorem pinned_count_mismatch_fails_on_revalidation
    (values values' : MIIConfig) name dc rest (m : gpu_index_map) :
  deployment_configs values = (name, dc) :: rest ->
  replica_configs dc = [] ->
  GPU_index_map dc = Some m ->
  NoDup (map fst m) ->
  m <> [] ->
  replica_num dc <> Z.of_nat (length m) ->
  generate_replica_configs values = Some (Ok values') ->
  (exists dc' tail,
      deployment_configs values' = (name, dc') :: tail /\
      map (fun rc => (hostname rc, gpu_indices rc)) (replica_configs dc') = m)
  /\ generate_replica_configs values' = Some (Raise ReplicaConfigsLength).
Proof.
  intros Hdcs Hnone Hpin Hnd Hne Hmis Hgen.
  destruct (generate_first_deployment values values' name dc rest Hdcs Hnone Hgen)
    as (pool & rcs & tail & Hpool & Hlen & Hv).
  rewrite Hpin in Hpool.
  pose proof (pinned_plan_items _ _ _ _ _ Hnd Hpool) as ->.
  split.
  - (* the replicas are the pinned entries *)
    unfold generate_replica_configs in Hgen. rewrite Hdcs in Hgen.
    cbn [generate_loop] in Hgen. rewrite Hnone in Hgen. cbn [length Nat.eqb negb] in Hgen.
    rewrite Hpin in Hgen. rewrite Hpool in Hgen.
    destruct (replica_loop_nth coord_config (Config.port_number values) (tensor_parallel dc)
                (torch_dist_port dc) m (port_map values)) as (rcs0 & pm1 & Hloop & Hnth).
    rewrite Hloop in Hgen.
    destruct (generate_loop _ _ rest _ pm1) as [[[dcs pm']|e]|] eqn:Hrest; [|discriminate..].
    injection Hgen as <-.
    apply generate_loop_keeps_done in Hrest as (tail0 & ->).
    eexists _, tail0. split; [reflexivity|].
    change (replica_configs (set_replica_plan dc (Some m) rcs0)) with rcs0.
    destruct (replica_loop_returns coord_config (Config.port_number values) (tensor_parallel dc)
                (torch_dist_port dc) 0 m (port_map values) []) as (r & p & Hr & Hrlen).
    cbn [app] in Hr. rewrite Hloop in Hr. injection Hr as <- <-.
    apply list_eq. intros k. rewrite list_lookup_fmap.
    destruct (m !! k) as [[h idx]|] eqn:Hk.
    + destruct (Hnth k h idx Hk) as (rcs_k & pm_k & start & _ & _ & Hrc & _).
      rewrite Hrc. symmetry. exact Hk.
    + pose proof (lookup_ge_None_1 _ _ Hk) as Hge.
      rewrite lookup_ge_None_2; [symmetry; exact Hk|].
      rewrite Hrlen. exact Hge.
  - rewrite Hv. unfold generate_replica_configs.
    cbn [deployment_configs hostfile Config.port_number port_map generate_loop].
    change (replica_configs (set_replica_plan dc (GPU_index_map dc) rcs)) with rcs.
    change (replica_num (set_replica_plan dc (GPU_index_map dc) rcs)) with (replica_num dc).
    destruct rcs as [|rc rcs]; [destruct m; [now elim Hne | discriminate]|].
    cbn [length Nat.eqb negb].
    destruct (Z.eqb_spec (Z.of_nat (S (length rcs))) (replica_num dc)) as [Heq|]; [|reflexivity].
    exfalso. apply Hmis. rewrite <- Heq. apply f_equal. exact Hlen.
Qed.

Lemma pinned_count_mismatch_fails_on_revalidation_witness :
  exists values',
    generate_replica_configs
      (mkMIIConfig
         [("m"%string,
           set_replica_plan (deployment_of "m" 1 1)
                            (Some [("h1"%string, [0]); ("h2"%string, [0])]) [])]
         50050 [("h1"%string, 1); ("h2"%string, 1)] ∅)
    = Some (Ok values') /\
    generate_replica_configs values' = Some (Raise ReplicaConfigsLength).
Proof.
  eexists. split; [vm_compute; reflexivity|].
  refine (proj2 (pinned_count_mismatch_fails_on_revalidation
           (mkMIIConfig
              [("m"%string,
                set_replica_plan (deployment_of "m" 1 1)
                                 (Some [("h1"%string, [0]); ("h2"%string, [0])]) [])]
              50050 [("h1"%string, 1); ("h2"%string, 1)] ∅)
           _ "m" _ [] [("h1"%string, [0]); ("h2"%string, [0])] _ _ _ _ _ _ _)).
  - reflexivity.
  - reflexivity.
  - reflexivity.
  - cbn. repeat constructor; set_solver.
  - discriminate.
  - cbn. lia.
  - vm_compute. reflexivity.
Defined.

(** ** The client *)

(** X9. The start-up wait has no timeout of its own: as long as the base
    port stays closed and the launched process keeps running, the wait is
    still going on after any number of polls. *)
Theorem wait_has_no_timeout (w : world) (process : option Popen) (port : Z) :
  (forall t, socket_open w t port = false /\ _is_server_process_alive w process t = true) ->
  forall fuel, _wait_until_server_is_live fuel w process port 0 [] = None.
Proof.
  intros Hquiet fuel.
  rewrite (wait_through_quiet_polls w process port fuel fuel 0 []) by auto.
  now rewrite Nat.sub_diag.
Qed.

Lemma wait_has_no_timeout_witness :
  _wait_until_server_is_live 100
    (mkWorld 1 (fun _ => false) (fun _ _ => false) (fun _ => false)
             (fun _ _ _ => replies 0 (Ok "reply"%string))
             (fun _ _ => Ok "reply"%string) "0"%string)
    (Some LaunchedServer) 50050 0 [] = None.
Proof.
  apply (wait_has_no_timeout
           (mkWorld 1 (fun _ => false) (fun _ _ => false) (fun _ => false)
                    (fun _ _ _ => replies 0 (Ok "reply"%string))
                    (fun _ _ => Ok "reply"%string) "0"%string)
           (Some LaunchedServer) 50050).
  intros t. split; reflexivity.
Defined.

(** What the wait has seen when it ends, for a wait that starts at poll [t]
    with [sleeps] already logged. *)
Lemma wait_outcome_from fuel (w : world) (process : option Popen) (port : Z)
    (t : nat) (sleeps : list Z) (r : result (list Z)) :
  _wait_until_server_is_live fuel w process port t sleeps = Some r ->
  exists n,
    (forall k, (k < n)%nat ->
       socket_open w (t + k) port = false /\
       _is_server_process_alive w process (t + k) = true) /\
    ((r = Ok (sleeps ++ replicate (S n) 4) /\
      socket_open w (t + n) port = true /\
      _is_server_process_alive w process (t + n) = true) \/
     (r = Raise ServerCrashed /\ _is_server_process_alive w process (t + n) = false)).
Proof.
  revert t sleeps. induction fuel as [|fuel IH]; intros t sleeps Hwait; [discriminate|].
  cbn [_wait_until_server_is_live] in Hwait.
  destruct (_is_server_process_alive w process t) eqn:Halive; cbn [negb] in Hwait.
  - destruct (socket_open w t port) eqn:Hopen.
    + injection Hwait as <-. exists O. split; [intros k Hk; lia|].
      left. rewrite Nat.add_0_r. auto.
    + apply IH in Hwait as (n & Hquiet & Hend). exists (S n). split.
      * intros [|k] Hk; [rewrite Nat.add_0_r; auto|].
        replace (t + S k)%nat with (S t + k)%nat by lia. apply Hquiet. lia.
      * replace (t + S n)%nat with (S t + n)%nat by lia.
        destruct Hend as [(-> & Ho & Ha)|(-> & Hd)]; [left | right; auto].
        split; [|auto]. rewrite <- app_assoc. reflexivity.
  - injection Hwait as <-. exists O. split; [intros k Hk; lia|].
    right. rewrite Nat.add_0_r. auto.
Qed.

(** X10. When the start-up wait ends, it ends for a reason it has seen: it
    returns only at a poll that found the base port open and the process
    running, after polls that all found the port closed and the process
    running, having slept 4 seconds after each of them; and it raises only
    the RuntimeError for a crashed server, at a poll that found the process
    exited. *)
Theorem wait_ends_only_as_observed
    (fuel : nat) (w : world) (process : option Popen) (port : Z) (r : result (list Z)) :
  _wait_until_server_is_live fuel w process port 0 [] = Some r ->
  exists n,
    (forall t, (t < n)%nat ->
       socket_open w t port = false /\ _is_server_process_alive w process t = true) /\
    ((r = Ok (replicate (S n) 4) /\
      socket_open w n port = true /\ _is_server_process_alive w process n = true) \/
     (r = Raise ServerCrashed /\ _is_server_process_alive w process n = false)).
Proof.
  intros Hwait. apply wait_outcome_from in Hwait as (n & Hquiet & Hend).
  exists n. split; [exact Hquiet | exact Hend].
Qed.

Lemma wait_ends_only_as_observed_witness :
  exists n,
    (forall t, (t < n)%nat ->
       socket_open half_open_world t 50050 = false /\
       _is_server_process_alive half_open_world (Some LaunchedServer) t = true) /\
    ((Ok [4] = Ok (replicate (S n) 4) /\
      socket_open half_open_world n 50050 = true /\
      _is_server_process_alive half_open_world (Some LaunchedServer) n = true) \/
     (Ok [4] = Raise ServerCrashed /\
      _is_server_process_alive half_open_world (Some LaunchedServer) n = false)).
Proof.
  apply (wait_ends_only_as_observed 3 half_open_world (Some LaunchedServer) 50050 (Ok [4])).
  reflexivity.
Defined.

Lemma getitem_missing (d : list (string * pyval)) (key : string) :
  (forall v, ~ In (key, v) d) -> getitem d key = Raise (KeyError key).
Proof.
  induction d as [|[k v] d IH]; intros Hmiss; [reflexivity|].
  cbn [getitem]. destruct (String.eqb_spec k key) as [->|_].
  - exfalso. apply (Hmiss v). now left.
  - apply IH. intros v' Hv'. apply (Hmiss v'). now right.
Qed.

(** X12. A request that cannot be built fails the query before any stub is
    called: with the gRPC client set up, at least one GPU and one turn of
    the event loop, the query raises the exception of the request builder
    whatever the servers would answer.  So a request for a text-generation
    client that has no key "query" raises the KeyError for "query", and
    every request to a text-to-image client is refused as an unknown task. *)
Theorem malformed_request_fails_query
    (fuel : nat) (w : world) (self : MIIServerClient) (request_dict : list (string * pyval))
    (e : exn) :
  use_grpc_server self = true ->
  initialize_grpc_client self = true ->
  0 < num_gpus self ->
  build_request (Client.task self) request_dict = Raise e ->
  query (S fuel) w self request_dict = Some (Raise e)
  /\ (Client.task self = TEXT_GENERATION ->
      (forall v, ~ In ("query"%string, v) request_dict) -> e = KeyError "query")
  /\ (Client.task self = TEXT2IMG -> e = UnknownTask).
Proof.
  intros Hgrpc Hclient Hgpus Hbuild. split; [|split].
  - unfold query, _query_in_tensor_parallel. rewrite Hgrpc, Hclient. cbn [negb].
    rewrite (shards_first_rest _ Hgpus). cbn [map].
    unfold _request_async_response at 1. rewrite Hbuild.
    rewrite await_first_outcome by (cbn; lia). reflexivity.
  - intros Htask Hmiss. rewrite Htask in Hbuild. cbn [build_request] in Hbuild.
    rewrite (getitem_missing _ _ Hmiss) in Hbuild. cbn in Hbuild. congruence.
  - intros Htask. rewrite Htask in Hbuild. cbn in Hbuild. congruence.
Qed.

Lemma malformed_request_fails_query_witness :
  query 1 first_shard_down
        (mkClient TEXT_GENERATION 2 true false true 50050 None [50050; 50051])
        [("question"%string, PStr "who")]
  = Some (Raise (KeyError "query")).
Proof.
  refine (proj1 (malformed_request_fails_query 0 first_shard_down
            (mkClient TEXT_GENERATION 2 true false true 50050 None [50050; 50051])
            [("question"%string, PStr "who")] (KeyError "query") _ _ _ _)).
  - reflexivity.
  - reflexivity.
  - reflexivity.
  - reflexivity.
Defined.

(** ** Building a [DeploymentConfig] *)

Section Construction.

Variable MII_MODEL_PATH_DEFAULT : string.
Variable AZUREML_MODEL_DIR : option string.
Variable check_valid check_supported : TaskType -> string -> result unit.

(** The path [set_model_path] starts from: the one given, or the default. *)
Let effective_path (values : DeploymentConfig) : string :=
  if String.eqb (model_path values) "" then MII_MODEL_PATH_DEFAULT else model_path values.

Lemma set_model_path_ok values values' :
  set_model_path MII_MODEL_PATH_DEFAULT AZUREML_MODEL_DIR values = Ok values' ->
  exists p, values' = with_model_path values p /\
    match AZUREML_MODEL_DIR with
    | Some dir =>
      if String.eqb dir "" then p = effective_path values
      else isabs dir = true /\ isabs (effective_path values) = false /\
           p = path_join dir (effective_path values)
    | None => p = effective_path values
    end.
Proof.
  unfold set_model_path, assert. fold (effective_path values).
  destruct AZUREML_MODEL_DIR as [dir|]; cbn [mbind result_bind].
  - destruct (String.eqb dir ""); cbn [mbind result_bind].
    + intros [= <-]. eauto.
    + destruct (isabs dir); cbn [mbind result_bind]; [|discriminate].
      destruct (isabs (effective_path values)); cbn [negb mbind result_bind]; [discriminate|].
      intros [= <-]. eauto.
  - intros [= <-]. eauto.
Qed.

(** A configuration that was built is the keyword arguments with the
    deployment ranks, the model path and [skip_model_check] set; every
    validator has accepted it. *)
Lemma init_shape kwargs cfg :
  DeploymentConfig_init MII_MODEL_PATH_DEFAULT AZUREML_MODEL_DIR check_valid check_supported
                        kwargs = Ok cfg ->
  exists r p,
    cfg = with_skip_model_check (with_model_path (with_deploy_rank kwargs (Some r)) p) true /\
    checkpoint_dict_valid (checkpoint_dict kwargs) = Ok (checkpoint_dict kwargs) /\
    zero_or_meta kwargs = Ok kwargs /\
    bloom_model_valid kwargs = Ok kwargs /\
    deploy_rank_valid kwargs = Ok (with_deploy_rank kwargs (Some r)) /\
    set_model_path MII_MODEL_PATH_DEFAULT AZUREML_MODEL_DIR (with_deploy_rank kwargs (Some r))
    = Ok (with_model_path (with_deploy_rank kwargs (Some r)) p) /\
    meta_tensor_or_sys_mem cfg = Ok cfg /\
    zero_dtype_valid cfg = Ok cfg /\
    deepspeed_or_zero cfg = Ok cfg.
Proof.
  unfold DeploymentConfig_init.
  destruct (checkpoint_dict_valid (checkpoint_dict kwargs)) as [cd|] eqn:Hcd;
    cbn [mbind result_bind]; [|congruence].
  assert (cd = checkpoint_dict kwargs) as ->.
  { revert Hcd. unfold checkpoint_dict_valid. destruct (checkpoint_dict kwargs) as [d|];
      [|congruence].
    destruct (truthy _); [discriminate|].
    destruct (foldl _ _ _); cbn [mbind result_bind]; congruence. }
  destruct (zero_or_meta kwargs) as [v1|] eqn:H1; cbn [mbind result_bind]; [|congruence].
  pose proof H1 as H1'. apply zero_or_meta_ok in H1' as ->.
  destruct (bloom_model_valid kwargs) as [v2|] eqn:H2; cbn [mbind result_bind]; [|congruence].
  pose proof H2 as H2'. apply bloom_model_valid_ok in H2' as ->.
  destruct (deploy_rank_valid kwargs) as [v3|] eqn:H3; cbn [mbind result_bind]; [|congruence].
  destruct (deploy_rank_valid_ok _ _ H3) as (r & -> & Hlen).
  destruct (set_model_path MII_MODEL_PATH_DEFAULT AZUREML_MODEL_DIR
              (with_deploy_rank kwargs (Some r))) as [v4|] eqn:H4;
    cbn [mbind result_bind]; [|congruence].
  destruct (set_model_path_ok _ _ H4) as (p & -> & _).
  destruct (validate_model_and_task check_valid check_supported
              (with_model_path (with_deploy_rank kwargs (Some r)) p)) as [v5|] eqn:H5;
    cbn [mbind result_bind]; [|congruence].
  apply validate_model_and_task_ok in H5 as ->.
  set (c := with_skip_model_check (with_model_path (with_deploy_rank kwargs (Some r)) p) true).
  destruct (meta_tensor_or_sys_mem c) as [v6|] eqn:H6; cbn [mbind result_bind]; [|congruence].
  assert (v6 = c) as ->.
  { unfold meta_tensor_or_sys_mem in H6. destruct (_ && _); congruence. }
  destruct (zero_dtype_valid c) as [v7|] eqn:H7; cbn [mbind result_bind]; [|congruence].
  assert (v7 = c) as ->.
  { unfold zero_dtype_valid, assert in H7.
    destruct (enable_zero c); cbn [mbind result_bind] in H7; [|congruence].
    destruct (fp16_enabled _) as [[|]|]; cbn [mbind result_bind] in H7; [| |congruence];
      destruct (dtype_eqb _ _); cbn [mbind result_bind] in H7; congruence. }
  intros Hlast.
  assert (cfg = c) as ->.
  { unfold deepspeed_or_zero, assert in Hlast.
    destruct (negb _); cbn [mbind result_bind] in Hlast; congruence. }
  exists r, p. repeat split; assumption.
Qed.

End Construction.

Lemma dtype_eqb_eq a b : dtype_eqb a b = true <-> a = b.
Proof. destruct a, b; cbn; split; congruence. Qed.

(** X13. Every configuration that was built has [skip_model_check] set, a
    list of deployment ranks as long as the tensor-parallel degree (the
    ranks 0 to degree - 1 when none were given, the given ones otherwise), so
    a degree that is not negative; it never has DeepSpeed and ZeRO both
    enabled, nor meta tensors together with loading through system memory;
    with ZeRO it has no meta tensors and a dtype of fp16 or fp32; for a
    Bloom model its dtype is int8 or fp16 and CUDA graphs are off. *)
Theorem constructed_config_invariants
    (MII_MODEL_PATH_DEFAULT : string) (AZUREML_MODEL_DIR : option string)
    (check_valid check_supported : TaskType -> string -> result unit)
    (kwargs cfg : DeploymentConfig) :
  DeploymentConfig_init MII_MODEL_PATH_DEFAULT AZUREML_MODEL_DIR check_valid check_supported
                        kwargs = Ok cfg ->
  skip_model_check cfg = true /\
  (exists r, deploy_rank cfg = Some r /\
             Z.of_nat (length r) = tensor_parallel cfg /\
             (deploy_rank kwargs = None -> r = seqZ 0 (tensor_parallel cfg)) /\
             (forall r0, deploy_rank kwargs = Some r0 -> r = r0)) /\
  0 <= tensor_parallel cfg /\
  enable_deepspeed cfg && enable_zero cfg = false /\
  meta_tensor cfg && load_with_sys_mem cfg = false /\
  (enable_zero cfg = true ->
   meta_tensor cfg = false /\ (dtype cfg = fp16 \/ dtype cfg = fp32)) /\
  (contains "bigscience/bloom" (model cfg) = true ->
   (dtype cfg = int8 \/ dtype cfg = fp16) /\ enable_cuda_graph cfg = false).
Proof.
  intros Hinit.
  destruct (init_shape _ _ _ _ _ _ Hinit)
    as (r & p & -> & _ & Hzm & Hbloom & Hrank & _ & Hmeta & Hzd & Hdz).
  cbn [skip_model_check deploy_rank tensor_parallel enable_deepspeed enable_zero meta_tensor
       load_with_sys_mem dtype model enable_cuda_graph with_skip_model_check with_model_path
       with_deploy_rank].
  split; [reflexivity|].
  assert (Hr : Z.of_nat (length r) = tensor_parallel kwargs /\
               (deploy_rank kwargs = None -> r = seqZ 0 (tensor_parallel kwargs)) /\
               (forall r0, deploy_rank kwargs = Some r0 -> r = r0)).
  { revert Hrank. unfold deploy_rank_valid, assert.
    destruct (Z.eqb_spec (tensor_parallel kwargs)
                (Z.of_nat (length match deploy_rank kwargs with
                                  | Some r => r
                                  | None => Planner.range 0 (tensor_parallel kwargs)
                                  end))) as [Heq|]; cbn [mbind result_bind]; [|discriminate].
    intros [= Hr]. symmetry in Hr. rename Hr into Hr'.
    split; [rewrite Hr'; lia|]. split.
    - intros Hn. rewrite Hn in Hr'. rewrite Hr'. unfold Planner.range. now rewrite Z.sub_0_r.
    - intros r0 H0. rewrite H0 in Hr'. exact Hr'. }
  split; [exists r; split; [reflexivity | exact Hr]|].
  split; [lia|].
  split.
  { revert Hdz. unfold deepspeed_or_zero, assert. cbn.
    destruct (enable_deepspeed kwargs && enable_zero kwargs); [discriminate | reflexivity]. }
  split.
  { revert Hmeta. unfold meta_tensor_or_sys_mem. cbn.
    destruct (meta_tensor kwargs && load_with_sys_mem kwargs); [discriminate | reflexivity]. }
  split.
  - intros Hzero. split.
    + revert Hzm. unfold zero_or_meta, assert. rewrite Hzero.
      destruct (meta_tensor kwargs); cbn; [discriminate | reflexivity].
    + revert Hzd. unfold zero_dtype_valid, assert. cbn. rewrite Hzero.
      destruct (fp16_enabled (ds_config kwargs)) as [[|]|]; cbn; [| |discriminate].
      * destruct (dtype_eqb (dtype kwargs) fp16) eqn:E; cbn; [|discriminate].
        apply dtype_eqb_eq in E. auto.
      * destruct (dtype_eqb (dtype kwargs) fp32) eqn:E; cbn; [|discriminate].
        apply dtype_eqb_eq in E. auto.
  - intros Hb. revert Hbloom. unfold bloom_model_valid, assert. rewrite Hb.
    destruct (dtype_eqb (dtype kwargs) int8) eqn:E1; cbn.
    + apply dtype_eqb_eq in E1.
      destruct (enable_cuda_graph kwargs); cbn; [discriminate | auto].
    + destruct (dtype_eqb (dtype kwargs) fp16) eqn:E2; cbn; [|discriminate].
      apply dtype_eqb_eq in E2.
      destruct (enable_cuda_graph kwargs); cbn; [discriminate | auto].
Qed.

Lemma constructed_config_invariants_witness :
  skip_model_check aml_config = true /\
  (exists r, deploy_rank aml_config = Some r /\
             Z.of_nat (length r) = tensor_parallel aml_config /\
             (deploy_rank aml_kwargs = None -> r = seqZ 0 (tensor_parallel aml_config)) /\
             (forall r0, deploy_rank aml_kwargs = Some r0 -> r = r0)) /\
  0 <= tensor_parallel aml_config /\
  enable_deepspeed aml_config && enable_zero aml_config = false /\
  meta_tensor aml_config && load_with_sys_mem aml_config = false /\
  (enable_zero aml_config = true ->
   meta_tensor aml_config = false /\ (dtype aml_config = fp16 \/ dtype aml_config = fp32)) /\
  (contains "bigscience/bloom" (model aml_config) = true ->
   (dtype aml_config = int8 \/ dtype aml_config = fp16) /\ enable_cuda_graph aml_config = false).
Proof.
  apply (constructed_config_invariants "/tmp/mii_models" (Some "/aml"%string)
           (fun _ _ => Ok tt) (fun _ _ => Ok tt) aml_kwargs aml_config).
  reflexivity.
Defined.

(** X14. Where [AZUREML_MODEL_DIR] is not set, a configuration that was
    built survives the trip to the launched server: when the text it is
    serialized to decodes back into its fields, [b64_encoded_config] builds
    the very same configuration from them. *)
Theorem shipped_config_rebuilt_without_aml_dir
    (MII_MODEL_PATH_DEFAULT : string)
    (check_valid check_supported : TaskType -> string -> result unit)
    (json : DeploymentConfig -> string) (json_loads : string -> result DeploymentConfig)
    (urlsafe_b64encode : string -> string) (urlsafe_b64decode : string -> result string)
    (kwargs cfg : DeploymentConfig) :
  urlsafe_b64decode (urlsafe_b64encode (json cfg)) = Ok (json cfg) ->
  json_loads (json cfg) = Ok cfg ->
  DeploymentConfig_init MII_MODEL_PATH_DEFAULT None check_valid check_supported kwargs = Ok cfg ->
  b64_encoded_config MII_MODEL_PATH_DEFAULT None check_valid check_supported
                     json_loads urlsafe_b64decode
                     (serialize_config json urlsafe_b64encode cfg)
  = Ok cfg.
Proof.
  intros Hb64 Hjson Hinit. unfold b64_encoded_config, serialize_config.
  rewrite Hb64. cbn [mbind result_bind]. rewrite Hjson. cbn [mbind result_bind].
  exact (init_again_without_aml_dir _ _ _ _ _ Hinit).
Qed.

Lemma shipped_config_rebuilt_without_aml_dir_witness :
  b64_encoded_config "/tmp/mii_models" None (fun _ _ => Ok tt) (fun _ _ => Ok tt)
    (fun _ => Ok (with_skip_model_check
                    (with_deploy_rank aml_kwargs (Some [0])) true))
    (fun s => Ok s)
    (serialize_config (fun _ => "{...}"%string) (fun s => s)
       (with_skip_model_check (with_deploy_rank aml_kwargs (Some [0])) true))
  = Ok (with_skip_model_check (with_deploy_rank aml_kwargs (Some [0])) true).
Proof.
  apply (shipped_config_rebuilt_without_aml_dir "/tmp/mii_models"
           (fun _ _ => Ok tt) (fun _ _ => Ok tt)
           (fun _ => "{...}"%string)
           (fun _ => Ok (with_skip_model_check (with_deploy_rank aml_kwargs (Some [0])) true))
           (fun s => s) (fun s => Ok s) aml_kwargs).
  - reflexivity.
  - reflexivity.
  - reflexivity.
Defined.

(** The loop over the four required keys. *)
Lemma required_keys_fold (d : list (string * pyval)) (keys : list string) (acc : result unit) :
  foldl (fun acc k =>
           _ ← acc;
           assert (truthy (dict_get d k (PStr "")))
                  (ValidationError ("Missing key=" ++ k ++ " in checkpoint_dict")))
        acc keys = Ok tt
  <-> acc = Ok tt /\ Forall (fun k => truthy (dict_get d k (PStr "")) = true) keys.
Proof.
  revert acc. induction keys as [|k keys IH]; intros acc; cbn [foldl].
  - split; [intros ->; split; [reflexivity | constructor] | now intros [-> _]].
  - rewrite IH. split.
    + intros [Hacc Hkeys]. destruct acc as [[]|e]; cbn in Hacc; [|discriminate].
      unfold assert in Hacc. destruct (truthy _) eqn:Hk; [|discriminate].
      split; [reflexivity|]. constructor; assumption.
    + intros [-> Hkeys]. inversion Hkeys as [|? ? Hk Hrest]; subst.
      split; [|exact Hrest]. cbn. unfold assert. now rewrite Hk.
Qed.

(** X15. [checkpoint_dict_valid] accepts no dictionary at all, and a
    dictionary exactly when it has no truthy "base_dir" and a truthy value
    for each of "checkpoints", "parallelization", "version" and "type"; what
    it accepts it returns unchanged. *)
Theorem checkpoint_dict_accepted_iff
    (field_value x : option (list (string * pyval))) :
  checkpoint_dict_valid field_value = Ok x <->
  x = field_value /\
  match field_value with
  | None => True
  | Some d =>
    truthy (dict_get d "base_dir" (PStr "")) = false /\
    Forall (fun k => truthy (dict_get d k (PStr "")) = true)
           ["checkpoints"; "parallelization"; "version"; "type"]%string
  end.
Proof.
  unfold checkpoint_dict_valid. destruct field_value as [d|].
  - destruct (truthy (dict_get d "base_dir" (PStr ""))) eqn:Hbase.
    + split; [discriminate | intros [_ [? _]]; discriminate].
    + destruct (foldl _ (Ok tt) _) as [[]|e] eqn:Hfold; cbn [mbind result_bind].
      * apply required_keys_fold in Hfold as [_ Hkeys].
        split; [intros [= <-]; auto | intros [-> _]; reflexivity].
      * split; [discriminate|]. intros [_ [_ Hkeys]].
        assert (Hok : foldl (fun acc k =>
                   _ ← acc;
                   assert (truthy (dict_get d k (PStr "")))
                          (ValidationError ("Missing key=" ++ k ++ " in checkpoint_dict")))
                  (Ok tt) ["checkpoints"; "parallelization"; "version"; "type"]%string = Ok tt)
          by (apply required_keys_fold; auto).
        rewrite Hok in Hfold. discriminate.
  - split; [intros [= <-]; auto | intros [-> _]; reflexivity].
Qed.

(** X16. Where [AZUREML_MODEL_DIR] is set to a directory, a configuration
    is only ever built when the directory is absolute and the model path,
    the given one or the default when none is given, is relative; its
    [model_path] is then the join of the two.  So with an absolute default
    path, a configuration without [model_path] cannot be built there. *)
Theorem aml_dir_requires_relative_model_path
    (MII_MODEL_PATH_DEFAULT dir : string)
    (check_valid check_supported : TaskType -> string -> result unit)
    (kwargs : DeploymentConfig) :
  dir <> ""%string ->
  (forall cfg,
      DeploymentConfig_init MII_MODEL_PATH_DEFAULT (Some dir) check_valid check_supported kwargs
      = Ok cfg ->
      isabs dir = true /\
      isabs (if String.eqb (model_path kwargs) "" then MII_MODEL_PATH_DEFAULT
             else model_path kwargs) = false /\
      model_path cfg
      = path_join dir (if String.eqb (model_path kwargs) "" then MII_MODEL_PATH_DEFAULT
                       else model_path kwargs))
  /\ (model_path kwargs = ""%string -> isabs MII_MODEL_PATH_DEFAULT = true ->
      exists e,
        DeploymentConfig_init MII_MODEL_PATH_DEFAULT (Some dir) check_valid check_supported
                              kwargs = Raise e).
Proof.
  intros Hne.
  assert (Hpost : forall cfg,
      DeploymentConfig_init MII_MODEL_PATH_DEFAULT (Some dir) check_valid check_supported kwargs
      = Ok cfg ->
      isabs dir = true /\
      isabs (if String.eqb (model_path kwargs) "" then MII_MODEL_PATH_DEFAULT
             else model_path kwargs) = false /\
      model_path cfg
      = path_join dir (if String.eqb (model_path kwargs) "" then MII_MODEL_PATH_DEFAULT
                       else model_path kwargs)).
  { intros cfg Hinit.
    destruct (init_shape _ _ _ _ _ _ Hinit) as (r & p & -> & _ & _ & _ & _ & Hpath & _).
    destruct (set_model_path_ok _ _ _ _ Hpath) as (p' & Hp' & Hcase).
    apply (f_equal model_path) in Hp'. cbn in Hp'. subst p'.
    destruct (String.eqb_spec dir "") as [|_]; [congruence|].
    cbn in Hcase. exact Hcase. }
  split; [exact Hpost|].
  intros Hempty Habs.
  destruct (DeploymentConfig_init MII_MODEL_PATH_DEFAULT (Some dir) check_valid check_supported
              kwargs) as [cfg|e] eqn:Hinit; [|eauto].
  destruct (Hpost cfg eq_refl) as (_ & Hrel & _).
  rewrite Hempty in Hrel. cbn in Hrel. congruence.
Qed.

Lemma aml_dir_requires_relative_model_path_witness :
  isabs "/aml" = true /\
  isabs (if String.eqb (model_path aml_kwargs) "" then "/tmp/mii_models"%string
         else model_path aml_kwargs) = false /\
  model_path aml_config
  = path_join "/aml" (if String.eqb (model_path aml_kwargs) "" then "/tmp/mii_models"%string
                      else model_path aml_kwargs).
Proof.
  refine (proj1 (aml_dir_requires_relative_model_path "/tmp/mii_models" "/aml"
                   (fun _ _ => Ok tt) (fun _ _ => Ok tt) aml_kwargs _) aml_config _).
  - discriminate.
  - reflexivity.
Defined.

(** ** The launched server *)

(** X17. [main] starts an inference server only when neither the load
    balancer nor the RESTful gateway is selected and a server port is given;
    the server of local rank [r] then listens on [server_port + r], so with
    the same arguments the servers of different ranks listen on different
    ports; the ports given for the load balancer and the gateway play no
    part in it. *)
Theorem inference_server_port_per_rank (a : Launch.args) (r s : Z) :
  Launch.load_balancer a = false ->
  Launch.restful_gateway a = false ->
  Launch.server_port a <> 0 ->
  Launch.main a r
  = inr (Launch.InferenceServer (Launch.deployment_config a) (Launch.server_port a + r))
  /\ (Launch.main a r = Launch.main a s -> r = s)
  /\ (forall lb_port rest_port,
         Launch.main (Launch.mkArgs (Launch.deployment_config a) (Launch.mii_config a)
                        (Launch.server_port a) false lb_port false rest_port) r
         = Launch.main a r).
Proof.
  intros Hlb Hrest Hport.
  assert (Hmain : forall x, Launch.main a x
            = inr (Launch.InferenceServer (Launch.deployment_config a)
                                          (Launch.server_port a + x))).
  { intros x. unfold Launch.main. rewrite Hlb, Hrest. cbn.
    destruct (Z.eqb_spec (Launch.server_port a) 0); [congruence | reflexivity]. }
  split; [apply Hmain|]. split.
  - rewrite !Hmain. intros [= Heq]. lia.
  - intros lb_port rest_port. rewrite Hmain. unfold Launch.main. cbn.
    destruct (Z.eqb_spec (Launch.server_port a) 0); [congruence | reflexivity].
Qed.

Lemma inference_server_port_per_rank_witness :
  Launch.main (Launch.mkArgs None None 50050 false 0 false 0) 1
  = inr (Launch.InferenceServer None (50050 + 1)).
Proof.
  refine (proj1 (inference_server_port_per_rank
                   (Launch.mkArgs None None 50050 false 0 false 0) 1 1 _ _ _)).
  - reflexivity.
  - reflexivity.
  - discriminate.
Defined.

(** X18. Whatever [main] starts, it is one service, selected by the flags
    alone and started only with its own port given: both flags together are
    refused, the gateway flag starts the gateway, the load-balancer flag the
    load balancer, no flag an inference server; with the defaults of the
    parser nothing is started. *)
Theorem main_starts_service_of_flags (a : Launch.args) (r : Z) (s : Launch.service) :
  Launch.main a r = inr s ->
  match s with
  | Launch.RestfulGateway dc lb_port rest_port =>
    Launch.restful_gateway a = true /\ Launch.load_balancer a = false /\
    rest_port = Launch.restful_gateway_port a /\ rest_port <> 0 /\
    lb_port = Launch.load_balancer_port a
  | Launch.LoadBalancer mc port =>
    Launch.load_balancer a = true /\ Launch.restful_gateway a = false /\
    port = Launch.load_balancer_port a /\ port <> 0
  | Launch.InferenceServer dc port =>
    Launch.load_balancer a = false /\ Launch.restful_gateway a = false /\
    Launch.server_port a <> 0 /\ port = Launch.server_port a + r
  end.
Proof.
  unfold Launch.main.
  destruct (Launch.load_balancer a), (Launch.restful_gateway a); cbn; [discriminate|..].
  - destruct (Z.eqb_spec (Launch.load_balancer_port a) 0); [discriminate|].
    intros [= <-]. auto.
  - destruct (Z.eqb_spec (Launch.restful_gateway_port a) 0); [discriminate|].
    intros [= <-]. auto.
  - destruct (Z.eqb_spec (Launch.server_port a) 0); [discriminate|].
    intros [= <-]. auto.
Qed.

Lemma main_starts_service_of_flags_witness :
  Launch.load_balancer (Launch.mkArgs None None 50050 true 50049 false 0) = true /\
  Launch.restful_gateway (Launch.mkArgs None None 50050 true 50049 false 0) = false /\
  50049 = Launch.load_balancer_port (Launch.mkArgs None None 50050 true 50049 false 0) /\
  50049 <> 0.
Proof.
  apply (main_starts_service_of_flags
           (Launch.mkArgs None None 50050 true 50049 false 0) 0
           (Launch.LoadBalancer None 50049)).
  reflexivity.
Defined.

(** ** [validate_deployment] *)

Section Validate.

Variables (D E : Type).
Variable make_config : option string -> option string -> option string -> E + D.

(** X19. When [validate_deployment] accepts its arguments, they are either
    deployments alone, which it returns with the tag given, or model, task
    and deployment name together and no deployments, for which it returns
    the single deployment it built.  The tag it returns is not empty, except
    that an empty string given as [deployment_tag] for a single model is
    returned as it is, since only [None] is replaced by the deployment name.
    With neither deployments nor any of the three names the function never
    returns: without a tag the assertion fails, with a tag the call of
    [create_score_file] does. *)
Theorem validate_deployment_accepts
    (task model deployment_name deployment_tag : option string) (deployments : list D) :
  (forall v,
      Deployment.validate_deployment D E make_config task model deployment_name
                                     deployment_tag deployments = inr v ->
      ((deployments <> [] /\
        Deployment.given model || Deployment.given task
        || Deployment.given deployment_name = false /\
        Deployment.v_deployments v = deployments /\
        Deployment.v_deployment_tag v = deployment_tag) \/
       (deployments = [] /\
        Deployment.given model && Deployment.given task
        && Deployment.given deployment_name = true /\
        (exists d, make_config deployment_name task model = inr d /\
                   Deployment.v_deployments v = [d]) /\
        Deployment.v_deployment_tag v
        = match deployment_tag with None => deployment_name | Some t => Some t end))
      /\ Deployment.v_deployments v <> []
      /\ (deployment_tag <> Some ""%string ->
          Deployment.given (Deployment.v_deployment_tag v) = true))
  /\ (deployments = [] ->
      Deployment.given model || Deployment.given task
      || Deployment.given deployment_name = false ->
      Deployment.validate_deployment D E make_config task model deployment_name
                                     deployment_tag deployments
      = inl (if Deployment.given deployment_tag
             then Deployment.ScoreFileCallRejected else Deployment.TagMissingEmpty)).
Proof.
  unfold Deployment.validate_deployment. split.
  - intros v. destruct deployments as [|d0 ds]; cbn [length Nat.eqb negb andb].
    + destruct (Deployment.given model || Deployment.given task
                || Deployment.given deployment_name) eqn:Hany; cbn [negb].
      * destruct (Deployment.given model && Deployment.given task
                  && Deployment.given deployment_name) eqn:Hall; cbn [negb]; [|discriminate].
        destruct (make_config deployment_name task model) as [e|d] eqn:Hmake; [discriminate|].
        intros [= <-]. cbn. split; [|split]; [| discriminate |].
        -- right. repeat split; eauto.
        -- intros Htag. destruct deployment_tag as [t|].
           ++ cbn. destruct (String.eqb_spec t ""); [congruence | reflexivity].
           ++ apply andb_prop in Hall as [_ Hname]. exact Hname.
      * destruct (Deployment.given deployment_tag); discriminate.
    + destruct (Deployment.given model || Deployment.given task
                || Deployment.given deployment_name) eqn:Hany; [discriminate|].
      destruct (Deployment.given deployment_tag) eqn:Htag; [|discriminate].
      intros [= <-]. cbn. split; [|split]; [| discriminate | auto].
      left. repeat split; auto; discriminate.
  - intros -> ->. cbn. destruct (Deployment.given deployment_tag); reflexivity.
Qed.

End Validate.

Lemma validate_deployment_accepts_witness :
  Deployment.validate_deployment unit unit (fun _ _ _ => inr tt)
    None None None (Some "tag"%string) []
  = inl Deployment.ScoreFileCallRejected.
Proof.
  refine (proj2 (validate_deployment_accepts unit unit (fun _ _ _ => inr tt)
                   None None None (Some "tag"%string) []) _ _).
  - reflexivity.
  - reflexivity.
Defined.
